(** * Food-label backend: session store and request orchestration

    A shallow embedding of the Node.js backend (server.js, aiService.js,
    sessionManager.js, ttsService.js) and the properties of its session
    life cycle and request handlers.

    Conventions of the embedding:
    - a JavaScript string is the list of its UTF-16 code units;
    - a JavaScript number is an IEEE binary64 float;
    - [Date.now()] readings are integers (milliseconds) passed explicitly;
    - the replies of the remote model and speech services are inputs of the
      handlers, and every call that leaves the process is recorded in a
      trace of events;
    - [console.log]/[console.error] lines are not modelled. *)

From Stdlib Require Import ZArith NArith List String Ascii Bool Lia.
From Stdlib Require Import Floats.PrimFloat.
From stdpp Require Import base option list gmap.

Local Open Scope Z_scope.
Set Warnings "-register-all".

(* ===================================================================== *)
(** ** JavaScript strings *)
(* ===================================================================== *)

Module JsString.

Abbreviation jsstring := (list N).

(** Code units of an ASCII literal of the source. *)
Fixpoint js (s : string) : jsstring :=
  match s with
  | EmptyString => []
  | String c r => N_of_ascii c :: js r
  end.

(** Same, with every apostrophe read as a double quote (code unit 34):
    used to write JSON texts. *)
Fixpoint jsq (s : string) : jsstring :=
  match s with
  | EmptyString => []
  | String c r =>
      (if N.eqb (N_of_ascii c) 39 then 34%N else N_of_ascii c) :: jsq r
  end.

Definition LF : N := 10%N.

(** [String.prototype.startsWith]. *)
Fixpoint startsWith (pre s : jsstring) : bool :=
  match pre, s with
  | [], _ => true
  | _ :: _, [] => false
  | a :: pre', b :: s' => N.eqb a b && startsWith pre' s'
  end.

(** [String.prototype.endsWith]. *)
Definition endsWith (suf s : jsstring) : bool :=
  startsWith (rev suf) (rev s).

(** WhiteSpace and LineTerminator code units of ECMAScript, the ones
    [String.prototype.trim] removes. *)
Definition isWhiteSpace (c : N) : bool :=
  (N.leb 9 c && N.leb c 13) || N.eqb c 32 || N.eqb c 160 || N.eqb c 5760
  || (N.leb 8192 c && N.leb c 8202) || N.eqb c 8232 || N.eqb c 8233
  || N.eqb c 8239 || N.eqb c 8287 || N.eqb c 12288 || N.eqb c 65279.

Fixpoint trimStart (s : jsstring) : jsstring :=
  match s with
  | c :: r => if isWhiteSpace c then trimStart r else s
  | [] => []
  end.

Definition trimEnd (s : jsstring) : jsstring := rev (trimStart (rev s)).

(** [String.prototype.trim]. *)
Definition trim (s : jsstring) : jsstring := trimEnd (trimStart s).

(** [s.includes(p)]: [p] occurs in [s]. *)
Definition includes (p s : jsstring) : Prop :=
  exists l r : jsstring, s = l ++ p ++ r.

(** Lower-casing of the ASCII letters; agrees with
    [String.prototype.toLowerCase] on ASCII strings. *)
Definition asciiLower (s : jsstring) : jsstring :=
  map (fun c => if N.leb 65 c && N.leb c 90 then (c + 32)%N else c) s.

End JsString.
Export JsString.

Arguments js : simpl never.
Arguments jsq : simpl never.

(* ===================================================================== *)
(** ** JavaScript values *)
(* ===================================================================== *)

(** The values the handlers see: results of [JSON.parse], request bodies,
    and the object literals the handlers build.  An object is the list of
    its own properties, keys unique, in creation order. *)
Inductive JSValue : Type :=
| JUndefined
| JNull
| JBool (b : bool)
| JNumber (n : float)
| JString (s : jsstring)
| JArray (elems : list JSValue)
| JObject (props : list (jsstring * JSValue)).

(** A thrown [Error]: only its [message] is ever read. *)
Record JSError := mkError { message : jsstring }.

(** What the JavaScript engine supplies. *)
Class JsEngine := {
  (** [JSON.parse]: the parsed value, or the message of the SyntaxError. *)
  JSON_parse : jsstring -> JSError + JSValue;
  (** Number::toString. *)
  NumberToString : float -> jsstring;
  (** [String.prototype.toLowerCase]. *)
  toLowerCase : jsstring -> jsstring;
  (** Message of the TypeError raised on a property read of [undefined] or
      [null], on a call of something that is not a function, or on a failed
      conversion to a primitive; the arguments are the value and the
      property involved. *)
  typeErrorMessage : JSValue -> jsstring -> jsstring
}.

Module Js.

(** ToBoolean. *)
Definition truthy (v : JSValue) : bool :=
  match v with
  | JUndefined | JNull => false
  | JBool b => b
  | JNumber n => negb (is_zero n || is_nan n)
  | JString s => negb (bool_decide (s = []))
  | JArray _ | JObject _ => true
  end.

Definition nullish (v : JSValue) : bool :=
  match v with
  | JUndefined | JNull => true
  | _ => false
  end.

Fixpoint assoc (k : jsstring) (props : list (jsstring * JSValue))
  : option JSValue :=
  match props with
  | [] => None
  | (k', v) :: r => if bool_decide (k' = k) then Some v else assoc k r
  end.

Definition typeError `{JsEngine} (v : JSValue) (k : jsstring) : JSError :=
  mkError (typeErrorMessage v k).

(** [v.k] for a property name [k] that no built-in prototype defines (all
    the names the source reads are such: isError, error, productName,
    ingredients, nutritionFacts, calories, message, isFollowUp, text,
    voice).  Reading from [undefined] or [null] throws. *)
Definition getProp `{JsEngine} (v : JSValue) (k : jsstring)
  : JSError + JSValue :=
  match v with
  | JUndefined | JNull => inl (typeError v k)
  | JObject props => inr (default JUndefined (assoc k props))
  | _ => inr JUndefined
  end.

(** [a || b]. *)
Definition or_else (a b : JSValue) : JSValue := if truthy a then a else b.

End Js.

(* ===================================================================== *)
(** ** node-cache *)
(* ===================================================================== *)

(** Modelled from the spec: the [node-cache] package that sessionManager.js
    instantiates is an external dependency and is not part of the sources.
    The model follows the Session Store contract of the specification
    (section 4.1) and the options the source passes to the constructor: an
    entry carries the instant [t] at which it stops being valid, fixed when
    it is written ([now + stdTTL * 1000], or 0 for "never" when [stdTTL] is
    0); [get] and [has] answer only for an entry that is present and not
    past [t], and drop an entry they find expired; a periodic sweep drops
    the expired entries.  With [useClones: false] the cache hands back the
    stored value itself. *)
Module NodeCache.
Section Cache.
Context {V : Type}.

(** The constructor options that sessionManager.js passes (seconds). *)
Record Options := { stdTTL : Z; checkperiod : Z; useClones : bool }.

(** Modelled from the spec: a stored value [v] with the instant [t]
    (milliseconds) after which it is no longer valid, 0 meaning never. *)
Record Entry := { t : Z; v : V }.

Abbreviation Data := (gmap jsstring Entry).

(** Modelled from the spec: an entry is expired once the clock is past its
    instant [t]; at the instant itself it is still valid. *)
Definition expired (e : Entry) (now : Z) : bool :=
  negb (t e =? 0) && (t e <? now).

(** Modelled from the spec: [set(key, value)] stores the value with a
    lifetime of [stdTTL] seconds from [now], replacing what was there. *)
Definition set (o : Options) (key : jsstring) (value : V) (now : Z)
    (d : Data) : bool * Data :=
  let livetime := if stdTTL o =? 0 then 0 else now + stdTTL o * 1000 in
  (true, <[key := {| t := livetime; v := value |}]> d).

(** Modelled from the spec: [get(key)] returns the value of a valid entry
    and nothing otherwise; an expired entry is dropped, a valid one is left
    untouched (its expiry instant included). *)
Definition get (key : jsstring) (now : Z) (d : Data) : option V * Data :=
  match d !! key with
  | Some e => if expired e now then (None, delete key d) else (Some (v e), d)
  | None => (None, d)
  end.

(** Modelled from the spec: [has(key)], with the same expiry check. *)
Definition has (key : jsstring) (now : Z) (d : Data) : bool * Data :=
  match d !! key with
  | Some e => if expired e now then (false, delete key d) else (true, d)
  | None => (false, d)
  end.

(** Modelled from the spec: the sweep run every [checkperiod] seconds,
    which drops the expired entries. *)
Definition checkData (now : Z) (d : Data) : Data :=
  filter (fun kv => expired kv.2 now = false) d.

End Cache.
Arguments Entry : clear implicits.
End NodeCache.

(* ===================================================================== *)
(** ** sessionManager.js *)
(* ===================================================================== *)

Module SessionManager.

(** The object [{ analysis, timestamp: Date.now() }] kept per session. *)
Record SessionRecord := { analysis : JSValue; timestamp : Z }.

Abbreviation Store := (gmap jsstring (NodeCache.Entry SessionRecord)).

Definition sessionCacheOptions : NodeCache.Options :=
  {| NodeCache.stdTTL := 15 * 60;
     NodeCache.checkperiod := 5 * 60;
     NodeCache.useClones := false |}.

(** Lifetime of a session in milliseconds. *)
Definition TTL_ms : Z := NodeCache.stdTTL sessionCacheOptions * 1000.

(** [storeAnalysis(sessionId, analysis)].  [ts] is the reading of
    [Date.now()] taken for the record, [now] the instant at which the
    cache performs the write ([ts <= now]: the record is built first). *)
Definition storeAnalysis (sessionId : jsstring) (a : JSValue) (ts now : Z)
    (st : Store) : bool * Store :=
  NodeCache.set sessionCacheOptions sessionId
    {| analysis := a; timestamp := ts |} now st.

(** [getAnalysis(sessionId)] at instant [now]. *)
Definition getAnalysis (sessionId : jsstring) (now : Z) (st : Store)
  : option SessionRecord * Store :=
  NodeCache.get sessionId now st.

(** [hasSession(sessionId)] at instant [now]. *)
Definition hasSession (sessionId : jsstring) (now : Z) (st : Store)
  : bool * Store :=
  NodeCache.has sessionId now st.

(** What can happen to the store over time: the three exported
    operations, and the periodic sweep of the cache. *)
Inductive StoreOp :=
| OpStore (sessionId : jsstring) (a : JSValue) (ts now : Z)
| OpGet (sessionId : jsstring) (now : Z)
| OpHas (sessionId : jsstring) (now : Z)
| OpSweep (now : Z).

Definition opTime (op : StoreOp) : Z :=
  match op with
  | OpStore _ _ _ now | OpGet _ now | OpHas _ now | OpSweep now => now
  end.

Definition writes (sessionId : jsstring) (op : StoreOp) : Prop :=
  match op with
  | OpStore k _ _ _ => k = sessionId
  | _ => False
  end.

Definition applyOp (op : StoreOp) (st : Store) : Store :=
  match op with
  | OpStore k a ts now => (storeAnalysis k a ts now st).2
  | OpGet k now => (getAnalysis k now st).2
  | OpHas k now => (hasSession k now st).2
  | OpSweep now => NodeCache.checkData now st
  end.

Definition runOps (ops : list StoreOp) (st : Store) : Store :=
  foldl (fun s op => applyOp op s) st ops.

End SessionManager.

(* ===================================================================== *)
(** ** Exceptions, conversions to string *)
(* ===================================================================== *)

(** A computation that returns or throws. *)
Definition Exc (A : Type) : Type := JSError + A.

#[global] Instance Exc_ret : MRet Exc := fun A a => inr a.
#[global] Instance Exc_bind : MBind Exc := fun A B f c =>
  match c with
  | inl e => inl e
  | inr a => f a
  end.

Module JsConv.
Import Js.
Section WithEngine.
Context `{JsEngine}.

(** [Array.prototype.join] given the conversion of an element: an element
    that is [undefined] or [null] contributes the empty string. *)
Definition joinWith (toStr : JSValue -> Exc jsstring) (sep : jsstring)
  : list JSValue -> Exc jsstring :=
  fix go (l : list JSValue) : Exc jsstring :=
    match l with
    | [] => inr []
    | x :: r =>
        match (if nullish x then inr [] else toStr x) with
        | inl e => inl e
        | inr s =>
            match r with
            | [] => inr s
            | _ :: _ =>
                match go r with
                | inl e => inl e
                | inr rest => inr (s ++ sep ++ rest)
                end
            end
        end
    end.

(** ToString.  An array converts through [join(",")]; a plain object
    converts to "[object Object]" unless it has an own property named
    toString (never callable for such data), in which case the conversion
    throws a TypeError. *)
Fixpoint ToString (v : JSValue) : Exc jsstring :=
  match v with
  | JUndefined => inr (js "undefined")
  | JNull => inr (js "null")
  | JBool true => inr (js "true")
  | JBool false => inr (js "false")
  | JNumber n => inr (NumberToString n)
  | JString s => inr s
  | JArray elems => joinWith ToString (js ",") elems
  | JObject props =>
      match assoc (js "toString") props with
      | None => inr (js "[object Object]")
      | Some _ => inl (typeError v (js "toString"))
      end
  end.

(** [v.join(sep)] on a value that is not nullish: only arrays have the
    method. *)
Definition callJoin (v : JSValue) (sep : jsstring) : Exc jsstring :=
  match v with
  | JArray elems => joinWith ToString sep elems
  | _ => inl (typeError v (js "join"))
  end.

(** [v.toLowerCase()]: only strings have the method. *)
Definition callToLowerCase (v : JSValue) : Exc jsstring :=
  match v with
  | JString s => inr (toLowerCase s)
  | _ => inl (typeError v (js "toLowerCase"))
  end.

End WithEngine.
End JsConv.

(** [Buffer.prototype.toString('base64')] on a list of bytes. *)
Module Base64.

Definition alphabet (i : N) : N :=
  (if i <? 26 then 65 + i
   else if i <? 52 then 97 + (i - 26)
   else if i <? 62 then 48 + (i - 52)
   else if i =? 62 then 43 else 47)%N.

Definition pad : N := 61%N.

Fixpoint encode (bytes : list N) : jsstring :=
  match bytes with
  | [] => []
  | [a] =>
      [alphabet (a / 4); alphabet ((a mod 4) * 16); pad; pad]%N
  | [a; b] =>
      [alphabet (a / 4); alphabet ((a mod 4) * 16 + b / 16);
       alphabet ((b mod 16) * 4); pad]%N
  | a :: b :: c :: r =>
      [alphabet (a / 4); alphabet ((a mod 4) * 16 + b / 16);
       alphabet ((b mod 16) * 4 + c / 64); alphabet (c mod 64)]%N
      ++ encode r
  end.

End Base64.

(* ===================================================================== *)
(** ** The remote services and the trace *)
(* ===================================================================== *)

Module OpenAI.

(** The part of a chat completion the source reads:
    [response.choices[0].message.content].  [choices] is [None] when the
    field is missing or not an array; [message] and [content] are [None]
    when missing or [null]. *)
Record Message := { content : option jsstring }.
Record Choice := { message : option Message }.
Record ChatCompletion := { choices : option (list Choice) }.

(** How an awaited call ends. *)
Inductive Outcome (A : Type) : Type :=
| Resolves (a : A)
| Rejects (e : JSError).
Arguments Resolves {A} a.
Arguments Rejects {A} e.

(** The calls that leave the process, with the inputs that vary: the
    instruction texts around them are constants of the source.  An event
    names the call and the values its payload is built from; it is not the
    text of the prompt, which the source obtains by substituting these
    values into the instruction text. *)
Inductive Request :=
| VisionRequest (mimeType imageBase64 : jsstring)
| SummaryRequest (analysis : JSValue)
| FollowUpRequest (analysis : JSValue) (question : jsstring)
| SpeechRequest (voice input : JSValue).

End OpenAI.

(** What is observed of a run: the entries into the service functions and
    the session manager, and the calls sent out. *)
Inductive Event :=
| CallAnalyzeImage
| CallGenerateSummary (analysis : JSValue)
| CallHandleFollowUp (analysis question : JSValue)
| CallGenerateSpeech (text voice : JSValue)
| CallStoreAnalysis (sessionId : jsstring)
| CallGetAnalysis (sessionId : jsstring)
| Outbound (req : OpenAI.Request).

(** The state a request runs in: the session cache and the trace so far. *)
Record World := { store : SessionManager.Store; trace : list Event }.

(** A computation in that state which returns or throws. *)
Definition M (A : Type) : Type := World -> Exc A * World.

#[global] Instance M_ret : MRet M := fun A a w => (inr a, w).
#[global] Instance M_bind : MBind M := fun A B f c w =>
  match c w with
  | (inl e, w') => (inl e, w')
  | (inr a, w') => f a w'
  end.

Module Effects.

Definition throw {A : Type} (e : JSError) : M A := fun w => (inl e, w).

(** [try { body } catch (err) { handler err }]. *)
Definition tryCatch {A : Type} (body : M A) (handler : JSError -> M A) : M A :=
  fun w =>
    match body w with
    | (inl e, w') => handler e w'
    | (inr a, w') => (inr a, w')
    end.

Definition liftExc {A : Type} (c : Exc A) : M A := fun w => (c, w).

Definition emit (ev : Event) : M unit :=
  fun w => (inr tt, {| store := store w; trace := trace w ++ [ev] |}).

(** [await] of a call to a remote service: the call is sent, then its
    outcome is delivered. *)
Definition await {A : Type} (req : OpenAI.Request) (o : OpenAI.Outcome A) : M A :=
  fun w =>
    let w' := {| store := store w; trace := trace w ++ [Outbound req] |} in
    match o with
    | OpenAI.Resolves a => (inr a, w')
    | OpenAI.Rejects e => (inl e, w')
    end.

Definition storeAnalysis (sessionId : jsstring) (a : JSValue) (ts now : Z)
  : M bool :=
  fun w =>
    let r := SessionManager.storeAnalysis sessionId a ts now (store w) in
    (inr r.1, {| store := r.2; trace := trace w ++ [CallStoreAnalysis sessionId] |}).

Definition getAnalysis (sessionId : jsstring) (now : Z)
  : M (option SessionManager.SessionRecord) :=
  fun w =>
    let r := SessionManager.getAnalysis sessionId now (store w) in
    (inr r.1, {| store := r.2; trace := trace w ++ [CallGetAnalysis sessionId] |}).

End Effects.

(* ===================================================================== *)
(** ** aiService.js *)
(* ===================================================================== *)

Module AiService.
Import Js JsConv Effects.

(** The object a service function resolves to: [{ success: true, ... }] or
    [{ success: false, error, details }].  (The [stack] field that
    [analyzeImage] adds in development mode is read by no caller and is left
    out.) *)
Inductive AnalysisResult :=
| AnalysisSuccess (analysis : JSValue)
| AnalysisFailure (error : JSValue) (details : jsstring).

Inductive SummaryResult :=
| SummarySuccess (summary : jsstring)
| SummaryFailure (error details : jsstring).

Inductive FollowUpResult :=
| FollowUpSuccess (response : jsstring)
| FollowUpFailure (error details : jsstring).

Definition fence : jsstring := js "```".
Definition fenceJson : jsstring := js "```json".

(** [content.replace(/^OPENING\n|\n```$/g, '')]: the opening fence with its
    line feed is removed at the very start, then a line feed with the
    closing fence at the very end of what remains. *)
Definition replaceFences (opening content : jsstring) : jsstring :=
  let head := opening ++ [LF] in
  let tail := LF :: fence in
  let c1 := if startsWith head content then drop (length head) content
            else content in
  if endsWith tail c1 then take (length c1 - length tail) c1 else c1.

(** Removal of the markdown code block markers. *)
Definition stripFences (content : jsstring) : jsstring :=
  if startsWith fenceJson content then trim (replaceFences fenceJson content)
  else if startsWith fence content then trim (replaceFences fence content)
  else content.

Section WithEngine.
Context `{JsEngine}.

Definition semanticDetails : jsstring :=
  js "The model could not process the image as a food label".

(** The inner [try] of [analyzeImage]: strip, parse, classify. *)
Definition parseAnalysis (content : jsstring) : Exc AnalysisResult :=
  analysis ← JSON_parse (stripFences content);
  isError ← getProp analysis (js "isError");
  flag ← (if truthy isError then inr isError
          else getProp analysis (js "error"));
  if truthy flag then
    error ← getProp analysis (js "error");
    inr (AnalysisFailure
           (or_else error (JString (js "Failed to analyze the food label")))
           semanticDetails)
  else inr (AnalysisSuccess analysis).

(** [analyzeImage(imageBase64, mimeType)] for arguments that are strings,
    which is what server.js passes (the text of [Buffer.toString('base64')]
    and the MIME type recorded by multer); the logging before the [try]
    reads [imageBase64.length], which is harmless on a string. *)
Definition analyzeImage (imageBase64 mimeType : jsstring)
    (upstream : OpenAI.Outcome OpenAI.ChatCompletion) : M AnalysisResult :=
  _ ← emit CallAnalyzeImage;
  tryCatch
    (_ ← (if bool_decide (imageBase64 = [])
          then throw (mkError
                 (js "Invalid image data: base64 string is empty or not a string"))
          else mret tt);
     _ ← (if bool_decide (mimeType = []) || negb (startsWith (js "image/") mimeType)
          then throw (mkError (js "Invalid MIME type: " ++ mimeType))
          else mret tt);
     response ← await (OpenAI.VisionRequest mimeType imageBase64) upstream;
     firstChoice ← match OpenAI.choices response with
                   | None | Some [] =>
                       throw (mkError (js "No choices in API response"))
                   | Some (c :: _) => mret c
                   end;
     content ← match OpenAI.message firstChoice with
               | None => throw (mkError (js "Invalid message format in API response"))
               | Some m =>
                   match OpenAI.content m with
                   | None | Some [] =>
                       throw (mkError (js "Invalid message format in API response"))
                   | Some c => mret c
                   end
               end;
     tryCatch
       (liftExc (parseAnalysis content))
       (fun parseError =>
          throw (mkError (js "Failed to parse API response: " ++ message parseError))))
    (fun error =>
       mret (AnalysisFailure (JString (js "Failed to analyze image")) (message error))).

(** [response.choices[0].message.content.trim()]. *)
Definition firstContentTrimmed (response : OpenAI.ChatCompletion) : Exc jsstring :=
  match OpenAI.choices response with
  | None => inl (typeError JUndefined (js "0"))
  | Some [] => inl (typeError JUndefined (js "message"))
  | Some (c :: _) =>
      match OpenAI.message c with
      | None => inl (typeError JUndefined (js "content"))
      | Some m =>
          match OpenAI.content m with
          | None => inl (typeError JNull (js "trim"))
          | Some text => inr (trim text)
          end
      end
  end.

Definition generateSummary (analysis : JSValue)
    (upstream : OpenAI.Outcome OpenAI.ChatCompletion) : M SummaryResult :=
  _ ← emit (CallGenerateSummary analysis);
  tryCatch
    (response ← await (OpenAI.SummaryRequest analysis) upstream;
     summary ← liftExc (firstContentTrimmed response);
     mret (SummarySuccess summary))
    (fun error =>
       mret (SummaryFailure (js "Failed to generate summary") (message error))).

(** The question is converted to a string when it is substituted into the
    prompt, before the call is sent. *)
Definition handleFollowUp (analysis question : JSValue)
    (upstream : OpenAI.Outcome OpenAI.ChatCompletion) : M FollowUpResult :=
  _ ← emit (CallHandleFollowUp analysis question);
  tryCatch
    (q ← liftExc (ToString question);
     response ← await (OpenAI.FollowUpRequest analysis q) upstream;
     answer ← liftExc (firstContentTrimmed response);
     mret (FollowUpSuccess answer))
    (fun error =>
       mret (FollowUpFailure (js "Failed to process follow-up question")
               (message error))).

Definition validVoices : list jsstring :=
  [js "alloy"; js "echo"; js "fable"; js "onyx"; js "nova"; js "shimmer"].

(** [validVoices.includes(voice)]. *)
Definition isValidVoice (voice : JSValue) : bool :=
  match voice with
  | JString s => bool_decide (s ∈ validVoices)
  | _ => false
  end.

(** The [generateSpeech] of aiService.js, which server.js does not import. *)
Definition generateSpeech (text voice : JSValue)
    (upstream : OpenAI.Outcome (list N)) : M (list N) :=
  let voice := match voice with JUndefined => JString (js "alloy") | _ => voice end in
  tryCatch
    (_ ← (if negb (isValidVoice voice)
          then throw (mkError
                 (js "Invalid voice. Must be one of: alloy, echo, fable, onyx, nova, shimmer"))
          else mret tt);
     await (OpenAI.SpeechRequest voice text) upstream)
    (fun error =>
       throw (mkError (js "Failed to generate speech: " ++ message error))).

End WithEngine.
End AiService.

(* ===================================================================== *)
(** ** ttsService.js *)
(* ===================================================================== *)

Module TtsService.
Import Js JsConv Effects.
Section WithEngine.
Context `{JsEngine}.

(** The [generateSpeech] that server.js imports. *)
Definition generateSpeech (text voice : JSValue)
    (upstream : OpenAI.Outcome (list N)) : M (list N) :=
  let voice := match voice with JUndefined => JString (js "alloy") | _ => voice end in
  _ ← emit (CallGenerateSpeech text voice);
  if negb (truthy text) then throw (mkError (js "No text provided for TTS"))
  else
    tryCatch
      (v ← liftExc (callToLowerCase voice);
       await (OpenAI.SpeechRequest (JString v) text) upstream)
      (fun error => throw (mkError (js "Failed to generate speech"))).

End WithEngine.
End TtsService.

(* ===================================================================== *)
(** ** server.js *)
(* ===================================================================== *)

Module Server.
Import Js JsConv Effects.

(** [req.file] as multer leaves it. *)
Record UploadedFile := { buffer : list N; mimetype : jsstring }.

(** What a handler sends: a status code (200 unless [res.status] is called)
    with the object given to [res.json], or the audio bytes given to
    [res.send]. *)
Inductive Payload :=
| JsonBody (v : JSValue)
| AudioBody (bytes : list N).

Record Response := { status : Z; body : Payload }.

Definition json (st : Z) (props : list (jsstring * JSValue)) : Response :=
  {| status := st; body := JsonBody (JObject props) |}.

(** The field [k] of a JSON response, if the response has it. *)
Definition field (k : jsstring) (r : Response) : option JSValue :=
  match body r with
  | JsonBody (JObject props) => assoc k props
  | _ => None
  end.

Section WithEngine.
Context `{JsEngine}.

(** [validateSession]: the identifier taken from the X-Session-ID header, or
    the response that ends the request. *)
Definition validateSession (header : option jsstring) : Response + jsstring :=
  match header with
  | None | Some [] =>
      inl (json 400
             [(js "success", JBool false);
              (js "error", JString (js "Session ID is required in X-Session-ID header"))])
  | Some sessionId => inr sessionId
  end.

(** The summary built from the analysis when [generateSummary] does not
    deliver one. *)
Definition fallbackSummary (analysis : JSValue) : Exc jsstring :=
  productName ← getProp analysis (js "productName");
  let product := or_else productName (JString (js "This product")) in
  ingredientsField ← getProp analysis (js "ingredients");
  joined ← (if nullish ingredientsField then inr JUndefined
            else s ← callJoin ingredientsField (js ", "); inr (JString s));
  let ingredients := or_else joined (JString (js "various ingredients")) in
  p ← ToString product;
  i ← ToString ingredients;
  let summary := p ++ js " contains " ++ i ++ js ". " in
  nutritionFacts ← getProp analysis (js "nutritionFacts");
  calories ← (if nullish nutritionFacts then inr JUndefined
              else getProp nutritionFacts (js "calories"));
  if truthy calories then
    c ← ToString calories;
    inr (summary ++ js "It has approximately " ++ c ++ js " calories per serving.")
  else inr summary.

(** POST /api/analyze.  [file] is [req.file]; [vision] and [summaryUpstream]
    are the outcomes of the two remote calls, [uuid] the value of
    [uuidv4()], [ts] and [now] the clock readings of the store. *)
Definition postAnalyze (file : option UploadedFile)
    (vision : OpenAI.Outcome OpenAI.ChatCompletion) (uuid : jsstring)
    (ts now : Z) (summaryUpstream : OpenAI.Outcome OpenAI.ChatCompletion)
  : M Response :=
  tryCatch
    (match file with
     | None =>
         mret (json 400
                 [(js "success", JBool false);
                  (js "error", JString (js "No file uploaded or unsupported file type"))])
     | Some f =>
         let imageBase64 := Base64.encode (buffer f) in
         analysisResult ← AiService.analyzeImage imageBase64 (mimetype f) vision;
         match analysisResult with
         | AiService.AnalysisFailure error details =>
             mret (json 500
                     [(js "success", JBool false);
                      (js "error", error);
                      (js "details", JString details)])
         | AiService.AnalysisSuccess analysis =>
             let sessionId := uuid in
             _ ← storeAnalysis sessionId analysis ts now;
             summary ←
               tryCatch
                 (summaryResult ← AiService.generateSummary analysis summaryUpstream;
                  match summaryResult with
                  | AiService.SummarySuccess ((_ :: _) as text) => mret text
                  | _ => liftExc (fallbackSummary analysis)
                  end)
                 (fun error =>
                    mret (js "Analysis complete. Ask me anything about this product."));
             mret (json 200
                     [(js "success", JBool true);
                      (js "sessionId", JString sessionId);
                      (js "summary", JString summary);
                      (js "hasAnalysis", JBool true);
                      (js "analysis", analysis)])
         end
     end)
    (fun error =>
       mret (json 500
               [(js "success", JBool false);
                (js "error", JString (js "Failed to process image"));
                (js "details", JString (message error))])).

(** POST /api/chat, behind [validateSession].  [header] is the X-Session-ID
    header, [reqBody] is [req.body]. *)
Definition postChat (header : option jsstring) (reqBody : JSValue) (now : Z)
    (upstream : OpenAI.Outcome OpenAI.ChatCompletion) : M Response :=
  match validateSession header with
  | inl rejection => mret rejection
  | inr sessionId =>
      tryCatch
        (message ← liftExc (getProp reqBody (js "message"));
         isFollowUp ← liftExc (v ← getProp reqBody (js "isFollowUp");
                               inr (match v with JUndefined => JBool false | _ => v end));
         sessionData ← getAnalysis sessionId now;
         match sessionData with
         | None =>
             mret (json 404
                     [(js "success", JBool false);
                      (js "error", JString
                         (js "Session not found or expired. Please scan the product again."))])
         | Some data =>
             if truthy isFollowUp && truthy message then
               followUpResult ←
                 AiService.handleFollowUp (SessionManager.analysis data) message upstream;
               match followUpResult with
               | AiService.FollowUpFailure error _ => throw (mkError error)
               | AiService.FollowUpSuccess response =>
                   mret (json 200
                           [(js "success", JBool true);
                            (js "response", JString response);
                            (js "isFollowUp", JBool true)])
               end
             else
               summaryResult ←
                 AiService.generateSummary (SessionManager.analysis data) upstream;
               match summaryResult with
               | AiService.SummaryFailure error _ => throw (mkError error)
               | AiService.SummarySuccess summary =>
                   mret (json 200
                           [(js "success", JBool true);
                            (js "response", JString summary);
                            (js "isFollowUp", JBool false)])
               end
         end)
        (fun error =>
           mret (json 500
                   [(js "success", JBool false);
                    (js "error", JString (js "Failed to process request"));
                    (js "details", JString (message error))]))
  end.

(** POST /api/tts. *)
Definition postTts (reqBody : JSValue) (upstream : OpenAI.Outcome (list N))
  : M Response :=
  tryCatch
    (text ← liftExc (getProp reqBody (js "text"));
     voice ← liftExc (v ← getProp reqBody (js "voice");
                      inr (match v with JUndefined => JString (js "alloy") | _ => v end));
     if negb (truthy text) then
       mret (json 400 [(js "error", JString (js "Text is required"))])
     else
       audioBuffer ← TtsService.generateSpeech text voice upstream;
       mret {| status := 200; body := AudioBody audioBuffer |})
    (fun error =>
       mret (json 500
               [(js "error", JString (js "Failed to generate speech"));
                (js "details", JString (message error))])).

(** One thing that happens to the server: a request with the outcomes of
    its remote calls, or a run of the cache sweep. *)
Inductive Incoming :=
| Analyze (file : option UploadedFile)
    (vision : OpenAI.Outcome OpenAI.ChatCompletion) (uuid : jsstring)
    (ts now : Z) (summaryUpstream : OpenAI.Outcome OpenAI.ChatCompletion)
| Chat (header : option jsstring) (reqBody : JSValue) (now : Z)
    (upstream : OpenAI.Outcome OpenAI.ChatCompletion)
| Tts (reqBody : JSValue) (upstream : OpenAI.Outcome (list N))
| Sweep (now : Z).

Definition serve (i : Incoming) (w : World) : World :=
  match i with
  | Analyze file vision uuid ts now summaryUpstream =>
      (postAnalyze file vision uuid ts now summaryUpstream w).2
  | Chat header reqBody now upstream => (postChat header reqBody now upstream w).2
  | Tts reqBody upstream => (postTts reqBody upstream w).2
  | Sweep now => {| store := NodeCache.checkData now (store w); trace := trace w |}
  end.

Definition serveAll (l : list Incoming) (w : World) : World :=
  foldl (fun w i => serve i w) w l.

(** The server as it starts: an empty cache. *)
Definition initial : World := {| store := ∅; trace := [] |}.

End WithEngine.

(** The upload filter of multer. *)
Definition SUPPORTED_IMAGE_TYPES : list jsstring :=
  [js "image/jpeg"; js "image/png"; js "image/gif"; js "image/webp"].

(** [fileFilter]: what the callback [cb] receives, [(null, true)] or the
    Error. *)
Definition fileFilter (mimetype : jsstring) : Exc bool :=
  if bool_decide (mimetype ∈ SUPPORTED_IMAGE_TYPES) then inr true
  else inl (mkError (js "Unsupported file type")).

Section GenerateResponse.
Context `{JsEngine}.

(** Message of the ReferenceError raised when an identifier that is declared
    nowhere is evaluated. *)
Variable referenceErrorMessage : jsstring -> jsstring.

(** What [generateResponse] would resolve to, as the route reads it. *)
Inductive GenerateResult :=
| GenerateSuccess (response : JSValue)
| GenerateFailure (error details : JSValue).

(** [generateResponse(message)]: server.js neither defines nor imports the
    identifier, so evaluating it throws. *)
Definition generateResponse (message : JSValue) : M GenerateResult :=
  throw (mkError (referenceErrorMessage (js "generateResponse"))).

(** POST /generate-response. *)
Definition postGenerateResponse (reqBody : JSValue) : M Response :=
  tryCatch
    (if negb (truthy reqBody) then
       mret (json 400
               [(js "success", JBool false);
                (js "error", JString (js "Request body is required"))])
     else
       message ← liftExc
         (m ← getProp reqBody (js "message");
          if truthy m then inr m
          else t ← getProp reqBody (js "text"); inr (or_else t reqBody));
       if negb (truthy message) then
         mret (json 400
                 [(js "success", JBool false);
                  (js "error", JString (js "Message is required in the request body"))])
       else
         result ← generateResponse message;
         match result with
         | GenerateSuccess response =>
             mret (json 200 [(js "success", JBool true);
                             (js "response", response)])
         | GenerateFailure error details =>
             mret (json 500 [(js "success", JBool false);
                             (js "error", error);
                             (js "details", details)])
         end)
    (fun error =>
       mret (json 500
               [(js "success", JBool false);
                (js "error", JString (js "Internal server error"));
                (js "details", JString (message error))])).

End GenerateResponse.
End Server.

(* ===================================================================== *)
(** ** Vocabulary of the properties *)
(* ===================================================================== *)

Module Vocabulary.
Import Js.

(** The error flag of an analysis is unset: both [isError] and [error] can
    be read and are falsy. *)
Definition errorFlagUnset `{JsEngine} (a : JSValue) : Prop :=
  exists x y,
    getProp a (js "isError") = inr x /\ truthy x = false /\
    getProp a (js "error") = inr y /\ truthy y = false.

(** The error flag of an analysis is set: [isError] or [error] is truthy. *)
Definition errorFlagSet `{JsEngine} (a : JSValue) : Prop :=
  exists x y,
    getProp a (js "isError") = inr x /\ getProp a (js "error") = inr y /\
    (truthy x = true \/ truthy y = true).

(** A chat completion whose first choice carries the text [content]. *)
Definition replyWith (content : jsstring) (others : list OpenAI.Choice)
  : OpenAI.Outcome OpenAI.ChatCompletion :=
  OpenAI.Resolves
    {| OpenAI.choices :=
         Some ({| OpenAI.message := Some {| OpenAI.content := Some content |} |}
               :: others) |}.

(** Kinds of events. *)
Definition isStoreWrite (ev : Event) : Prop :=
  match ev with CallStoreAnalysis _ => True | _ => False end.

Definition isFollowUpCall (ev : Event) : Prop :=
  match ev with CallHandleFollowUp _ _ => True | _ => False end.

Definition isSummaryCall (ev : Event) : Prop :=
  match ev with CallGenerateSummary _ => True | _ => False end.

Definition isSpeechRequest (ev : Event) : Prop :=
  match ev with Outbound (OpenAI.SpeechRequest _ _) => True | _ => False end.

(** The result [generateSummary] resolves to, given how its remote call
    ends. *)
Definition summaryResultOf `{JsEngine}
    (up : OpenAI.Outcome OpenAI.ChatCompletion) : AiService.SummaryResult :=
  match up with
  | OpenAI.Resolves response =>
      match AiService.firstContentTrimmed response with
      | inr text => AiService.SummarySuccess text
      | inl e => AiService.SummaryFailure (js "Failed to generate summary") (message e)
      end
  | OpenAI.Rejects e =>
      AiService.SummaryFailure (js "Failed to generate summary") (message e)
  end.

(** The result [handleFollowUp] resolves to once its request is sent. *)
Definition followUpResultOf `{JsEngine}
    (up : OpenAI.Outcome OpenAI.ChatCompletion) : AiService.FollowUpResult :=
  match up with
  | OpenAI.Resolves response =>
      match AiService.firstContentTrimmed response with
      | inr answer => AiService.FollowUpSuccess answer
      | inl e =>
          AiService.FollowUpFailure (js "Failed to process follow-up question")
            (message e)
      end
  | OpenAI.Rejects e =>
      AiService.FollowUpFailure (js "Failed to process follow-up question")
        (message e)
  end.

(** Every stored analysis has its error flag unset. *)
Definition storeClean `{JsEngine} (st : SessionManager.Store) : Prop :=
  forall sid e, st !! sid = Some e ->
    errorFlagUnset (SessionManager.analysis (NodeCache.v e)).

(** The last-resort summary of POST /api/analyze. *)
Definition genericSummary : jsstring :=
  js "Analysis complete. Ask me anything about this product.".

(** The summary POST /api/analyze sends, given the result of
    [generateSummary]. *)
Definition summaryFor `{JsEngine} (analysis : JSValue)
    (r : AiService.SummaryResult) : jsstring :=
  match r with
  | AiService.SummarySuccess ((_ :: _) as text) => text
  | _ => match Server.fallbackSummary analysis with
         | inr text => text
         | inl _ => genericSummary
         end
  end.

End Vocabulary.

(** An engine for the worked examples: it parses the JSON texts the examples
    use (and rejects every other text), lower-cases ASCII, and prints the one
    number that occurs. *)
Module Examples.

Definition chocoBarText : jsstring :=
  jsq "{'productName':'Choco Bar','ingredients':['sugar','cocoa'],'nutritionFacts':{'calories':200}}".

Definition chocoBar : JSValue :=
  JObject
    [(js "productName", JString (js "Choco Bar"));
     (js "ingredients", JArray [JString (js "sugar"); JString (js "cocoa")]);
     (js "nutritionFacts", JObject [(js "calories", JNumber 200%float)])].

Definition unreadableText : jsstring :=
  jsq "{'error':'Not a food label','isError':true}".

Definition unreadable : JSValue :=
  JObject
    [(js "error", JString (js "Not a food label"));
     (js "isError", JBool true)].

Definition errorOnlyText : jsstring :=
  jsq "{'productName':'Choco Bar','error':'Label is partly hidden','isError':false}".

Definition errorOnly : JSValue :=
  JObject
    [(js "productName", JString (js "Choco Bar"));
     (js "error", JString (js "Label is partly hidden"));
     (js "isError", JBool false)].

Definition looseText : jsstring :=
  jsq "{'productName':'Choco Bar','ingredients':'sugar, cocoa'}".

Definition loose : JSValue :=
  JObject
    [(js "productName", JString (js "Choco Bar"));
     (js "ingredients", JString (js "sugar, cocoa"))].

Definition parse (text : jsstring) : JSError + JSValue :=
  if bool_decide (text = chocoBarText) then inr chocoBar
  else if bool_decide (text = unreadableText) then inr unreadable
  else if bool_decide (text = errorOnlyText) then inr errorOnly
  else if bool_decide (text = looseText) then inr loose
  else inl (mkError (js "Unexpected token")).

#[local] Instance engine : JsEngine := {|
  JSON_parse := parse;
  NumberToString := fun n => if PrimFloat.eqb n 200 then js "200" else js "NaN";
  toLowerCase := asciiLower;
  typeErrorMessage := fun _ k => js "Cannot read properties (reading '" ++ k ++ js "')"
|}.

Definition jpeg : Server.UploadedFile :=
  {| Server.buffer := [255; 216; 255]%N; Server.mimetype := js "image/jpeg" |}.

Definition uuid : jsstring := js "3f2b8c1e-5d4a-4c6b-9e7f-0a1b2c3d4e5f".

Definition overloaded : JSError := mkError (js "429 Too Many Requests").

(** The reply of the model wrapped in a fenced code block. *)
Definition fencedChocoBarText : jsstring :=
  js "```json" ++ [LF] ++ chocoBarText ++ [LF] ++ js "```".

(** A server that holds one session, created at instant 1000. *)
Definition withSession : World :=
  {| store := (SessionManager.storeAnalysis uuid chocoBar 1000 1000 ∅).2;
     trace := [] |}.

Definition chocoBarRecord : SessionManager.SessionRecord :=
  {| SessionManager.analysis := chocoBar; SessionManager.timestamp := 1000 |}.

Definition audio : list N := [73; 68; 51]%N.

End Examples.

(** Further vocabulary: fenced texts, counting of the calls sent out, the
    requests that create a session. *)
Module Observations.

(** The text [body] inside a fenced code block tagged json. *)
Definition fencedJson (body : jsstring) : jsstring :=
  AiService.fenceJson ++ [LF] ++ body ++ [LF] ++ AiService.fence.

(** The text [body] inside a fenced code block without a tag. *)
Definition fencedPlain (body : jsstring) : jsstring :=
  AiService.fence ++ [LF] ++ body ++ [LF] ++ AiService.fence.

Definition isOutbound (ev : Event) : bool :=
  match ev with Outbound _ => true | _ => false end.

(** Number of calls sent out in a trace. *)
Definition outboundCount (tr : list Event) : nat :=
  length (filter (fun ev => isOutbound ev = true) tr).

(** The event touches the session manager. *)
Definition isSessionAccess (ev : Event) : Prop :=
  match ev with
  | CallStoreAnalysis _ | CallGetAnalysis _ => True
  | _ => False
  end.

(** The request is an upload that generates the identifier [sid]. *)
Definition generates (sid : jsstring) (i : Server.Incoming) : Prop :=
  match i with
  | Server.Analyze _ _ uuid _ _ _ => uuid = sid
  | _ => False
  end.

(** A text made of white space only. *)
Definition blank : jsstring := [32; 10; 9; 32]%N.

(** The message an engine gives to a ReferenceError. *)
Definition notDefined (name : jsstring) : jsstring := name ++ js " is not defined".

End Observations.

(* ===================================================================== *)
(** ** The session store *)
(* ===================================================================== *)

Module SessionStoreProps.
Import SessionManager.

Lemma expired_false_iff (e : NodeCache.Entry SessionRecord) now :
  NodeCache.expired e now = false <-> NodeCache.t e = 0 \/ now <= NodeCache.t e.
Proof.
  unfold NodeCache.expired.
  destruct (Z.eqb_spec (NodeCache.t e) 0), (Z.ltb_spec (NodeCache.t e) now);
    simpl; split; intros; try done; try lia; auto.
Qed.

(** An operation that does not write [sid] never makes it appear. *)
Lemma applyOp_absent (sid : jsstring) (op : StoreOp) (st : Store) :
  ~ writes sid op -> st !! sid = None -> applyOp op st !! sid = None.
Proof.
  intros Hw Hn. destruct op as [k a ts now | k now | k now | now]; simpl in *.
  - rewrite lookup_insert_ne; [done | congruence].
  - unfold getAnalysis, NodeCache.get.
    destruct (st !! k) as [e|] eqn:E; [|done].
    destruct (NodeCache.expired e now); simpl; [|done].
    destruct (decide (k = sid)) as [->|]; [apply lookup_delete_eq|].
    by rewrite lookup_delete_ne.
  - unfold hasSession, NodeCache.has.
    destruct (st !! k) as [e|] eqn:E; [|done].
    destruct (NodeCache.expired e now); simpl; [|done].
    destruct (decide (k = sid)) as [->|]; [apply lookup_delete_eq|].
    by rewrite lookup_delete_ne.
  - unfold NodeCache.checkData. apply map_lookup_filter_None. left. done.
Qed.

(** An operation that does not write [sid] leaves its entry as it is or
    drops it: it never changes the entry. *)
Lemma applyOp_entry_inv (sid : jsstring) (op : StoreOp) (st : Store) e :
  ~ writes sid op -> applyOp op st !! sid = Some e -> st !! sid = Some e.
Proof.
  intros Hw. destruct op as [k a ts now | k now | k now | now]; simpl in *.
  - rewrite lookup_insert_ne; [done | congruence].
  - unfold getAnalysis, NodeCache.get.
    destruct (st !! k) as [e'|] eqn:E; [|done].
    destruct (NodeCache.expired e' now); simpl; [|done].
    intros H. apply lookup_delete_Some in H. tauto.
  - unfold hasSession, NodeCache.has.
    destruct (st !! k) as [e'|] eqn:E; [|done].
    destruct (NodeCache.expired e' now); simpl; [|done].
    intros H. apply lookup_delete_Some in H. tauto.
  - unfold NodeCache.checkData. intros H.
    apply map_lookup_filter_Some in H. tauto.
Qed.

(** An operation that does not write [sid], performed while the entry of
    [sid] is still valid, keeps the entry. *)
Lemma applyOp_keeps (sid : jsstring) (op : StoreOp) (st : Store) e :
  ~ writes sid op -> NodeCache.expired e (opTime op) = false ->
  st !! sid = Some e -> applyOp op st !! sid = Some e.
Proof.
  intros Hw Hx Hs. destruct op as [k a ts now | k now | k now | now]; simpl in *.
  - rewrite lookup_insert_ne; [done | congruence].
  - unfold getAnalysis, NodeCache.get.
    destruct (st !! k) as [e'|] eqn:E; [|done].
    destruct (NodeCache.expired e' now) eqn:X; simpl; [|done].
    rewrite lookup_delete_ne; [done|]. intros ->. congruence.
  - unfold hasSession, NodeCache.has.
    destruct (st !! k) as [e'|] eqn:E; [|done].
    destruct (NodeCache.expired e' now) eqn:X; simpl; [|done].
    rewrite lookup_delete_ne; [done|]. intros ->. congruence.
  - unfold NodeCache.checkData. apply map_lookup_filter_Some. done.
Qed.

Lemma runOps_snoc (ops : list StoreOp) (op : StoreOp) (st : Store) :
  runOps (ops ++ [op]) st = applyOp op (runOps ops st).
Proof. unfold runOps. by rewrite foldl_app. Qed.

Lemma runOps_absent (sid : jsstring) (ops : list StoreOp) (st : Store) :
  Forall (fun op => ~ writes sid op) ops ->
  st !! sid = None -> runOps ops st !! sid = None.
Proof.
  intros Hf. revert st. induction Hf as [|op ops Hop _ IH]; intros st Hn; [done|].
  simpl. apply IH. by apply applyOp_absent.
Qed.

Lemma runOps_entry_inv (sid : jsstring) (ops : list StoreOp) (st : Store) e :
  Forall (fun op => ~ writes sid op) ops ->
  runOps ops st !! sid = Some e -> st !! sid = Some e.
Proof.
  intros Hf. revert st. induction Hf as [|op ops Hop _ IH]; intros st Hs; [done|].
  simpl in Hs. apply IH in Hs. by eapply applyOp_entry_inv.
Qed.

Lemma runOps_keeps (sid : jsstring) (ops : list StoreOp) (st : Store) e :
  Forall (fun op => ~ writes sid op) ops ->
  Forall (fun op => NodeCache.expired e (opTime op) = false) ops ->
  st !! sid = Some e -> runOps ops st !! sid = Some e.
Proof.
  intros Hf. revert st. induction Hf as [|op ops Hop _ IH]; intros st Hx Hs; [done|].
  inversion Hx; subst. simpl. apply IH; [done|]. by apply applyOp_keeps.
Qed.

Lemma getAnalysis_absent (sid : jsstring) (now : Z) (st : Store) :
  st !! sid = None -> (getAnalysis sid now st).1 = None.
Proof. intros H. unfold getAnalysis, NodeCache.get. by rewrite H. Qed.

Lemma getAnalysis_present (sid : jsstring) (now : Z) (st : Store) e :
  st !! sid = Some e ->
  (getAnalysis sid now st).1 =
    if NodeCache.expired e now then None else Some (NodeCache.v e).
Proof.
  intros H. unfold getAnalysis, NodeCache.get. rewrite H.
  by destruct (NodeCache.expired e now).
Qed.

Lemma storeAnalysis_lookup (sid : jsstring) (a : JSValue) (ts now : Z) (st : Store) :
  (storeAnalysis sid a ts now st).2 !! sid =
    Some {| NodeCache.t := now + TTL_ms;
            NodeCache.v := {| analysis := a; timestamp := ts |} |}.
Proof. unfold storeAnalysis, NodeCache.set. simpl. by rewrite lookup_insert_eq. Qed.

(** C1: a record stored with [storeAnalysis] is returned unchanged by a
    [getAnalysis] with the same identifier, as long as the read happens
    before the entry expires (in particular by an immediate read); the
    write itself reports success. *)
Theorem store_get_roundtrip (sid : jsstring) (a : JSValue) (ts now now' : Z) (st : Store) :
  now' <= now + TTL_ms ->
  (storeAnalysis sid a ts now st).1 = true /\
  (getAnalysis sid now' (storeAnalysis sid a ts now st).2).1
    = Some {| analysis := a; timestamp := ts |}.
Proof.
  intros Hle. split; [done|].
  rewrite (getAnalysis_present _ _ _ _ (storeAnalysis_lookup sid a ts now st)).
  assert (NodeCache.expired
            {| NodeCache.t := now + TTL_ms;
               NodeCache.v := {| analysis := a; timestamp := ts |} |} now' = false) as ->;
    [|done].
  apply expired_false_iff. simpl. lia.
Qed.

Lemma store_get_roundtrip_witness :
  5 <= 0 + TTL_ms /\
  (getAnalysis (js "abc") 5
     (storeAnalysis (js "abc") (JString (js "payload")) 0 0 ∅).2).1
    = Some {| analysis := JString (js "payload"); timestamp := 0 |}.
Proof.
  split; [unfold TTL_ms; simpl; lia|].
  apply (store_get_roundtrip (js "abc") (JString (js "payload")) 0 0 5 ∅).
  unfold TTL_ms; simpl; lia.
Defined.

(** C2: a session written at instant [T] has a fixed lifetime of 15
    minutes.  Whatever reads, existence checks, sweeps and writes of other
    sessions follow, a read strictly before [T + TTL] returns the stored
    record, a read after [T + TTL] returns nothing, and no such operation
    moves the expiry instant of the entry: it stays [T + TTL]. *)
Theorem session_fixed_ttl (sid : jsstring) (a : JSValue) (ts T : Z)
    (st : Store) (ops : list StoreOp) :
  0 <= T ->
  Forall (fun op => ~ writes sid op) ops ->
  (forall now, Forall (fun op => opTime op <= now) ops -> now < T + TTL_ms ->
     (getAnalysis sid now (runOps ops (storeAnalysis sid a ts T st).2)).1
       = Some {| analysis := a; timestamp := ts |}) /\
  (forall now, T + TTL_ms < now ->
     (getAnalysis sid now (runOps ops (storeAnalysis sid a ts T st).2)).1
       = None) /\
  (forall e, runOps ops (storeAnalysis sid a ts T st).2 !! sid = Some e ->
     NodeCache.t e = T + TTL_ms).
Proof.
  intros HT Hw.
  pose proof (storeAnalysis_lookup sid a ts T st) as Hs.
  set (e0 := {| NodeCache.t := T + TTL_ms;
                NodeCache.v := {| analysis := a; timestamp := ts |} |}) in *.
  assert (Httl : 0 < TTL_ms) by (unfold TTL_ms; simpl; lia).
  split; [|split].
  - intros now Ht Hnow.
    assert (Hk : runOps ops (storeAnalysis sid a ts T st).2 !! sid = Some e0).
    { apply runOps_keeps; [done| |done].
      eapply Forall_impl; [exact Ht|]. intros op Hop. simpl in Hop.
      apply expired_false_iff. simpl. lia. }
    rewrite (getAnalysis_present _ _ _ _ Hk).
    assert (NodeCache.expired e0 now = false) as ->; [|done].
    apply expired_false_iff. simpl. lia.
  - intros now Hnow.
    destruct (runOps ops (storeAnalysis sid a ts T st).2 !! sid) as [e|] eqn:E.
    + rewrite (getAnalysis_present _ _ _ _ E).
      apply runOps_entry_inv in E; [|done].
      rewrite Hs in E. injection E as <-.
      assert (NodeCache.expired e0 now = true) as ->; [|done].
      unfold NodeCache.expired. simpl.
      destruct (Z.eqb_spec (T + TTL_ms) 0), (Z.ltb_spec (T + TTL_ms) now);
        simpl; try done; lia.
    + by rewrite (getAnalysis_absent _ _ _ E).
  - intros e E. apply runOps_entry_inv in E; [|done].
    rewrite Hs in E. by injection E as <-.
Qed.

Lemma session_fixed_ttl_witness :
  let ops := [OpGet (js "abc") 1005; OpSweep 2000; OpHas (js "abc") 2500;
              OpStore (js "xyz") JNull 3000 3000; OpGet (js "xyz") 3500] in
  let st1 := (storeAnalysis (js "abc") (JBool true) 1000 1000 ∅).2 in
  (getAnalysis (js "abc") 4000 (runOps ops st1)).1
    = Some {| analysis := JBool true; timestamp := 1000 |} /\
  (getAnalysis (js "abc") 901001 (runOps ops st1)).1 = None.
Proof.
  intros ops st1.
  assert (Hw : Forall (fun op => ~ writes (js "abc") op) ops).
  { repeat constructor; simpl; try tauto. intros H; discriminate H. }
  destruct (session_fixed_ttl (js "abc") (JBool true) 1000 1000 ∅ ops
              ltac:(lia) Hw) as (Hbefore & Hafter & _).
  split.
  - apply Hbefore; [repeat constructor; simpl; lia | unfold TTL_ms; simpl; lia].
  - apply Hafter. unfold TTL_ms; simpl; lia.
Defined.

(** C8: an identifier under which nothing was ever stored is not found:
    starting from the empty store, after any operations none of which
    writes [sid], [getAnalysis sid] returns nothing. *)
Theorem never_stored_not_found (sid : jsstring) (ops : list StoreOp) (now : Z) :
  Forall (fun op => ~ writes sid op) ops ->
  (getAnalysis sid now (runOps ops ∅)).1 = None.
Proof.
  intros Hw. apply getAnalysis_absent. apply runOps_absent; [done|].
  apply lookup_empty.
Qed.

Lemma never_stored_not_found_witness :
  (getAnalysis (js "nope") 50
     (runOps [OpStore (js "abc") JNull 10 10; OpGet (js "abc") 20; OpSweep 30] ∅)).1
    = None.
Proof.
  apply never_stored_not_found.
  repeat constructor; simpl; try tauto. intros H; discriminate H.
Defined.

End SessionStoreProps.

(* ===================================================================== *)
(** ** The gateways *)
(* ===================================================================== *)

Opaque js jsq.

Ltac run_monad :=
  unfold mbind, M_bind, Exc_bind, mret, M_ret, Exc_ret,
    Effects.tryCatch, Effects.emit, Effects.throw, Effects.await,
    Effects.liftExc, Effects.storeAnalysis, Effects.getAnalysis;
  simpl.

Module GatewayProps.
Import Js JsConv Effects AiService Vocabulary.

Lemma startsWith_app (p r : jsstring) : startsWith p (p ++ r) = true.
Proof. induction p as [|c p IH]; [done|]. simpl. by rewrite N.eqb_refl. Qed.

Lemma startsWith_app_false (p q s : jsstring) :
  startsWith p s = false -> startsWith (p ++ q) s = false.
Proof.
  revert s. induction p as [|c p IH]; intros s; [done|].
  destruct s as [|d s]; [done|]. simpl.
  destruct (N.eqb c d); simpl; [apply IH|done].
Qed.

Lemma endsWith_app (r suf : jsstring) : endsWith suf (r ++ suf) = true.
Proof. unfold endsWith. rewrite rev_app_distr. apply startsWith_app. Qed.

(** Removal of the fences around a body, for either opening fence. *)
Lemma replaceFences_wrapped (opening body : jsstring) :
  replaceFences opening (opening ++ [LF] ++ body ++ [LF] ++ fence) = body.
Proof.
  unfold replaceFences.
  replace (opening ++ [LF] ++ body ++ [LF] ++ fence)
    with ((opening ++ [LF]) ++ (body ++ LF :: fence))
    by (by rewrite <- !app_assoc).
  rewrite startsWith_app, drop_app_length, endsWith_app.
  rewrite length_app, Nat.add_sub. apply take_app_length.
Qed.

Lemma stripFences_fencedJson (body : jsstring) :
  stripFences (Observations.fencedJson body) = trim body.
Proof.
  unfold stripFences, Observations.fencedJson.
  by rewrite startsWith_app, replaceFences_wrapped.
Qed.

Lemma stripFences_fencedPlain (body : jsstring) :
  stripFences (Observations.fencedPlain body) = trim body.
Proof.
  unfold stripFences, Observations.fencedPlain.
  assert (startsWith fenceJson (fence ++ [LF] ++ body ++ [LF] ++ fence) = false)
    as -> by (by vm_compute).
  by rewrite startsWith_app, replaceFences_wrapped.
Qed.

Lemma stripFences_unfenced (content : jsstring) :
  startsWith fence content = false -> stripFences content = content.
Proof.
  intros Hc. unfold stripFences. rewrite Hc.
  assert (Hj : fenceJson = fence ++ js "json") by (by vm_compute).
  by rewrite Hj, (startsWith_app_false _ _ _ Hc).
Qed.

Lemma fencedJson_nonempty (body : jsstring) : Observations.fencedJson body <> [].
Proof. intros E. vm_compute in E. discriminate E. Qed.

Lemma fencedPlain_nonempty (body : jsstring) : Observations.fencedPlain body <> [].
Proof. intros E. vm_compute in E. discriminate E. Qed.

Section WithEngine.
Context `{JsEngine}.

Lemma getProp_twice (a : JSValue) (k k' : jsstring) (x : JSValue) :
  getProp a k = inr x -> exists y, getProp a k' = inr y.
Proof. destruct a; simpl; intros; try discriminate; eauto. Qed.

(** The inner block of [analyzeImage] yields a success exactly for a text
    that parses to a value whose error flag is unset. *)
Lemma parseAnalysis_success (content : jsstring) (a : JSValue) :
  parseAnalysis content = inr (AnalysisSuccess a) <->
  JSON_parse (stripFences content) = inr a /\ errorFlagUnset a.
Proof.
  unfold parseAnalysis, errorFlagUnset. run_monad. split.
  - destruct (JSON_parse (stripFences content)) as [e|a']; [done|].
    destruct (getProp a' (js "isError")) as [e|x] eqn:Ex; [done|].
    destruct (truthy x) eqn:Tx; simpl.
    + rewrite Tx. destruct (getProp a' (js "error")); done.
    + destruct (getProp a' (js "error")) as [e|y] eqn:Ey; [done|].
      destruct (truthy y) eqn:Ty; [done|].
      intros [= ->]. split; [done|]. exists x, y. by rewrite Ex, Ey.
  - intros [-> (x & y & -> & Tx & Ey & Ty)]. rewrite Tx, Ey. simpl. by rewrite Ty.
Qed.

(** A parsed value whose error flag is set is classified as the semantic
    failure, with the model's [error] as message when it is truthy. *)
Lemma parseAnalysis_flagged (content : jsstring) (a : JSValue) :
  JSON_parse (stripFences content) = inr a -> errorFlagSet a ->
  exists y, getProp a (js "error") = inr y /\
    parseAnalysis content =
      inr (AnalysisFailure
             (or_else y (JString (js "Failed to analyze the food label")))
             semanticDetails).
Proof.
  intros Hp (x & y & Ex & Ey & Hor). exists y. split; [done|].
  unfold parseAnalysis. run_monad. rewrite Hp, Ex.
  destruct (truthy x) eqn:Tx; simpl.
  - rewrite Tx, Ey. done.
  - rewrite Ey. destruct Hor as [?|Ty]; [congruence|]. simpl. rewrite Ty. done.
Qed.

Lemma parseAnalysis_cases (content : jsstring) :
  (exists e, parseAnalysis content = inl e) \/
  (exists a, parseAnalysis content = inr (AnalysisSuccess a) /\ errorFlagUnset a) \/
  (exists err, parseAnalysis content = inr (AnalysisFailure err semanticDetails)).
Proof.
  destruct (parseAnalysis content) as [e|[a|err det]] eqn:E; [eauto| |].
  - right; left. exists a. split; [done|].
    by destruct (proj1 (parseAnalysis_success _ _) E).
  - right; right. exists err. f_equal. f_equal.
    revert E. unfold parseAnalysis. run_monad.
    repeat case_match; try done; by intros [= _ <-].
Qed.

Lemma image_mime_nonempty (mime : jsstring) :
  startsWith (js "image/") mime = true -> mime <> [].
Proof. intros Hs ->. by vm_compute in Hs. Qed.

(** [analyzeImage] once the request is sent and answered with a text. *)
Lemma analyzeImage_replied (img mime content : jsstring)
    (others : list OpenAI.Choice) (w : World) :
  img <> [] -> startsWith (js "image/") mime = true -> content <> [] ->
  analyzeImage img mime (replyWith content others) w =
    (inr (match parseAnalysis content with
          | inr r => r
          | inl e =>
              AnalysisFailure (JString (js "Failed to analyze image"))
                (js "Failed to parse API response: " ++ message e)
          end),
     {| store := store w;
        trace := trace w ++ [CallAnalyzeImage; Outbound (OpenAI.VisionRequest mime img)] |}).
Proof.
  intros Himg Hmime Hc. pose proof (image_mime_nonempty _ Hmime) as Hm.
  unfold analyzeImage, replyWith. run_monad.
  rewrite (bool_decide_eq_false_2 _ Himg), (bool_decide_eq_false_2 _ Hm), Hmime.
  simpl. destruct content as [|c0 content']; [done|].
  rewrite <- app_assoc. simpl.
  destruct (parseAnalysis (c0 :: content')); done.
Qed.

(** Once the request is sent and answered with a text, [analyzeImage]
    succeeds exactly for a text that, stripped, parses to a value whose error
    flag is unset. *)
Lemma analyzeImage_success_iff (img mime content : jsstring)
    (others : list OpenAI.Choice) (w : World) (a : JSValue) :
  img <> [] -> startsWith (js "image/") mime = true -> content <> [] ->
  ((analyzeImage img mime (replyWith content others) w).1 = inr (AnalysisSuccess a)
   <-> JSON_parse (stripFences content) = inr a /\ errorFlagUnset a).
Proof.
  intros Himg Hmime Hc. rewrite analyzeImage_replied by done. simpl.
  rewrite <- parseAnalysis_success.
  destruct (parseAnalysis content) as [e|r]; [done|].
  split; congruence.
Qed.

(** [analyzeImage] always returns a result (it never throws), leaves the
    store alone, and adds to the trace only its own entry and at most the
    one request it sends; a success carries an analysis whose error flag is
    unset. *)
Lemma analyzeImage_run (img mime : jsstring)
    (up : OpenAI.Outcome OpenAI.ChatCompletion) (w : World) :
  exists r tr,
    analyzeImage img mime up w =
      (inr r, {| store := store w; trace := trace w ++ tr |}) /\
    (tr = [CallAnalyzeImage] \/
     tr = [CallAnalyzeImage; Outbound (OpenAI.VisionRequest mime img)]) /\
    (forall a, r = AnalysisSuccess a -> errorFlagUnset a).
Proof.
  unfold analyzeImage. run_monad.
  destruct (bool_decide (img = [])); simpl.
  { eexists _, _. split; [reflexivity|]. split; [by left|done]. }
  destruct (bool_decide (mime = []) || negb (startsWith (js "image/") mime)); simpl.
  { eexists _, _. split; [reflexivity|]. split; [by left|done]. }
  rewrite <- app_assoc. simpl.
  destruct up as [response|e]; simpl.
  2:{ eexists _, _. split; [reflexivity|]. split; [by right|done]. }
  destruct (OpenAI.choices response) as [[|c cs]|]; simpl.
  1,3: eexists _, _; (split; [reflexivity|]); (split; [by right|done]).
  destruct (OpenAI.message c) as [m|]; simpl.
  2:{ eexists _, _. split; [reflexivity|]. split; [by right|done]. }
  destruct (OpenAI.content m) as [[|c0 content]|]; simpl.
  1,3: eexists _, _; (split; [reflexivity|]); (split; [by right|done]).
  destruct (parseAnalysis_cases (c0 :: content)) as [[e ->]|[(a & -> & Ha)|[err ->]]].
  - eexists _, _. split; [reflexivity|]. split; [by right|done].
  - eexists _, _. split; [reflexivity|]. split; [by right|]. by intros a' [= <-].
  - eexists _, _. split; [reflexivity|]. split; [by right|done].
Qed.

(** The result of [analyzeImage] does not depend on the state it runs in. *)
Lemma analyzeImage_result_indep (img mime : jsstring)
    (up : OpenAI.Outcome OpenAI.ChatCompletion) (w w' : World) :
  (analyzeImage img mime up w).1 = (analyzeImage img mime up w').1.
Proof.
  unfold analyzeImage. run_monad.
  destruct (bool_decide (img = [])); simpl; [done|].
  destruct (bool_decide (mime = []) || negb (startsWith (js "image/") mime));
    simpl; [done|].
  destruct up as [response|e]; simpl; [|done].
  destruct (OpenAI.choices response) as [[|c cs]|]; simpl; try done.
  destruct (OpenAI.message c) as [m|]; simpl; [|done].
  destruct (OpenAI.content m) as [[|c0 content]|]; simpl; try done.
  destruct (parseAnalysis (c0 :: content)); done.
Qed.

(** [generateSummary] always returns a result: the trimmed text of the
    reply, or a failure when the call or the reading of the reply throws.
    It sends exactly one request and leaves the store alone. *)
Lemma generateSummary_run (a : JSValue)
    (up : OpenAI.Outcome OpenAI.ChatCompletion) (w : World) :
  generateSummary a up w =
    (inr (summaryResultOf up),
     {| store := store w;
        trace := trace w ++ [CallGenerateSummary a; Outbound (OpenAI.SummaryRequest a)] |}).
Proof.
  unfold generateSummary, summaryResultOf. run_monad. rewrite <- app_assoc. simpl.
  destruct up as [response|e]; simpl; [|done].
  destruct (firstContentTrimmed response); done.
Qed.

Lemma generateSummary_result_indep (a : JSValue)
    (up : OpenAI.Outcome OpenAI.ChatCompletion) (w w' : World) :
  (generateSummary a up w).1 = (generateSummary a up w').1.
Proof. by rewrite !generateSummary_run. Qed.

(** [handleFollowUp] always returns a result; the request is sent only if
    the question converts to a string. *)
Lemma handleFollowUp_run (a q : JSValue)
    (up : OpenAI.Outcome OpenAI.ChatCompletion) (w : World) :
  handleFollowUp a q up w =
    match ToString q with
    | inl e =>
        (inr (FollowUpFailure (js "Failed to process follow-up question") (message e)),
         {| store := store w; trace := trace w ++ [CallHandleFollowUp a q] |})
    | inr text =>
        (inr (followUpResultOf up),
         {| store := store w;
            trace := trace w ++ [CallHandleFollowUp a q;
                                 Outbound (OpenAI.FollowUpRequest a text)] |})
    end.
Proof.
  unfold handleFollowUp, followUpResultOf. run_monad.
  destruct (ToString q) as [e|text]; simpl; [done|].
  rewrite <- app_assoc. simpl.
  destruct up as [response|e]; simpl; [|done].
  destruct (firstContentTrimmed response); done.
Qed.

End WithEngine.
End GatewayProps.

(* ===================================================================== *)
(** ** The request handlers *)
(* ===================================================================== *)

Module ServerProps.
Import Js JsConv Effects Vocabulary Observations Server.
Import AiService(AnalysisSuccess, AnalysisFailure, SummarySuccess, SummaryFailure,
                 FollowUpSuccess, FollowUpFailure).
Section WithEngine.
Context `{JsEngine}.

(** What [postAnalyze] does once [analyzeImage] has failed: it answers 500
    with the failure and does nothing else. *)
Lemma postAnalyze_after_failure (f : UploadedFile)
    (vision : OpenAI.Outcome OpenAI.ChatCompletion) (uuid : jsstring)
    (ts now : Z) (summaryUpstream : OpenAI.Outcome OpenAI.ChatCompletion)
    (w w1 : World) (error : JSValue) (details : jsstring) :
  AiService.analyzeImage (Base64.encode (buffer f)) (mimetype f) vision w
    = (inr (AnalysisFailure error details), w1) ->
  postAnalyze (Some f) vision uuid ts now summaryUpstream w =
    (inr (json 500 [(js "success", JBool false);
                    (js "error", error);
                    (js "details", JString details)]), w1).
Proof. intros Ha. unfold postAnalyze. run_monad. by rewrite Ha. Qed.

(** What [postAnalyze] does once [analyzeImage] has succeeded. *)
Lemma postAnalyze_after_success (f : UploadedFile)
    (vision : OpenAI.Outcome OpenAI.ChatCompletion) (uuid : jsstring)
    (ts now : Z) (summaryUpstream : OpenAI.Outcome OpenAI.ChatCompletion)
    (w w1 : World) (a : JSValue) :
  AiService.analyzeImage (Base64.encode (buffer f)) (mimetype f) vision w
    = (inr (AnalysisSuccess a), w1) ->
  postAnalyze (Some f) vision uuid ts now summaryUpstream w =
    (inr (json 200
            [(js "success", JBool true);
             (js "sessionId", JString uuid);
             (js "summary", JString (summaryFor a (summaryResultOf summaryUpstream)));
             (js "hasAnalysis", JBool true);
             (js "analysis", a)]),
     {| store := (SessionManager.storeAnalysis uuid a ts now (store w1)).2;
        trace := trace w1 ++ [CallStoreAnalysis uuid; CallGenerateSummary a;
                              Outbound (OpenAI.SummaryRequest a)] |}).
Proof.
  intros Ha. unfold postAnalyze. run_monad. rewrite Ha.
  rewrite !GatewayProps.generateSummary_run. simpl.
  rewrite <- app_assoc. simpl.
  unfold summaryFor, genericSummary.
  destruct (summaryResultOf summaryUpstream) as [[|c text]|]; simpl; try done;
    destruct (fallbackSummary a); done.
Qed.

Lemma encode_nonempty (bytes : list N) : bytes <> [] -> Base64.encode bytes <> [].
Proof. destruct bytes as [|a [|b [|c r]]]; done. Qed.

Lemma getProp_defined (v : JSValue) (k : jsstring) :
  nullish v = false -> exists x, getProp v k = inr x.
Proof. destruct v; simpl; intros; try discriminate; eauto. Qed.

Lemma truthy_default_false (v : JSValue) :
  truthy (match v with JUndefined => JBool false | _ => v end) = truthy v.
Proof. by destruct v. Qed.

(** The shape of the summary built from the analysis: it starts with the
    product and always contains the word "contains". *)
Lemma fallbackSummary_shape (a : JSValue) (text : jsstring) :
  fallbackSummary a = inr text ->
  exists pn p rest,
    getProp a (js "productName") = inr pn /\
    ToString (or_else pn (JString (js "This product"))) = inr p /\
    text = p ++ js " contains " ++ rest.
Proof.
  unfold fallbackSummary. run_monad.
  destruct (getProp a (js "productName")) as [e|pn]; [done|].
  destruct (getProp a (js "ingredients")) as [e|ing]; [done|].
  destruct (if nullish ing then _ else _) as [e|joined]; [done|].
  destruct (ToString (or_else pn _)) as [e|p] eqn:Ep; [done|].
  destruct (ToString (or_else joined _)) as [e|i]; [done|].
  destruct (getProp a (js "nutritionFacts")) as [e|nf]; [done|].
  destruct (if nullish nf then _ else _) as [e|cal]; [done|].
  destruct (truthy cal).
  - destruct (ToString cal) as [e|c]; [done|]. intros [= <-].
    exists pn, p. eexists. split; [done|]. split; [done|].
    rewrite <- !app_assoc. reflexivity.
  - intros [= <-]. exists pn, p. eexists. split; [done|]. split; [done|].
    reflexivity.
Qed.

Lemma contains_nonempty (p rest : jsstring) : p ++ js " contains " ++ rest <> [].
Proof.
  intros E. apply (f_equal length) in E. rewrite !length_app in E.
  vm_compute (length (js " contains ")) in E. simpl in E. lia.
Qed.

Lemma summaryFor_nonempty (a : JSValue) (r : AiService.SummaryResult) :
  summaryFor a r <> [].
Proof.
  unfold summaryFor.
  assert (Hf : match fallbackSummary a with inr text => text | inl _ => genericSummary end <> []).
  { destruct (fallbackSummary a) as [e|text] eqn:E; [by vm_compute|].
    apply fallbackSummary_shape in E as (pn & p & rest & _ & _ & ->).
    apply contains_nonempty. }
  destruct r as [[|c text]|]; done.
Qed.

(** Without the header (or with an empty one) POST /api/chat answers 400 and
    touches nothing. *)
Lemma postChat_no_header (header : option jsstring) (reqBody : JSValue) (now : Z)
    (up : OpenAI.Outcome OpenAI.ChatCompletion) (w : World) :
  header = None \/ header = Some [] ->
  postChat header reqBody now up w =
    (inr (json 400
            [(js "success", JBool false);
             (js "error", JString (js "Session ID is required in X-Session-ID header"))]),
     w).
Proof. by intros [-> | ->]. Qed.

(** POST /api/chat with an identifier and a body: the session is looked up
    once, and the request is dispatched on [isFollowUp && message]. *)
Lemma postChat_run (sid : jsstring) (reqBody : JSValue) (now : Z)
    (up : OpenAI.Outcome OpenAI.ChatCompletion) (w : World) (f m : JSValue) :
  sid <> [] ->
  getProp reqBody (js "isFollowUp") = inr f ->
  getProp reqBody (js "message") = inr m ->
  postChat (Some sid) reqBody now up w =
    let looked := SessionManager.getAnalysis sid now (store w) in
    match looked.1 with
    | None =>
        (inr (json 404
                [(js "success", JBool false);
                 (js "error", JString
                    (js "Session not found or expired. Please scan the product again."))]),
         {| store := looked.2; trace := trace w ++ [CallGetAnalysis sid] |})
    | Some data =>
        let a := SessionManager.analysis data in
        if truthy f && truthy m then
          (inr (match (match ToString m with
                       | inl e => FollowUpFailure
                                    (js "Failed to process follow-up question") (message e)
                       | inr _ => followUpResultOf up
                       end) with
                | FollowUpSuccess response =>
                    json 200 [(js "success", JBool true);
                              (js "response", JString response);
                              (js "isFollowUp", JBool true)]
                | FollowUpFailure error _ =>
                    json 500 [(js "success", JBool false);
                              (js "error", JString (js "Failed to process request"));
                              (js "details", JString error)]
                end),
           {| store := looked.2;
              trace := trace w ++ CallGetAnalysis sid :: CallHandleFollowUp a m ::
                         match ToString m with
                         | inl _ => []
                         | inr q => [Outbound (OpenAI.FollowUpRequest a q)]
                         end |})
        else
          (inr (match summaryResultOf up with
                | SummarySuccess summary =>
                    json 200 [(js "success", JBool true);
                              (js "response", JString summary);
                              (js "isFollowUp", JBool false)]
                | SummaryFailure error _ =>
                    json 500 [(js "success", JBool false);
                              (js "error", JString (js "Failed to process request"));
                              (js "details", JString error)]
                end),
           {| store := looked.2;
              trace := trace w ++ [CallGetAnalysis sid; CallGenerateSummary a;
                                   Outbound (OpenAI.SummaryRequest a)] |})
    end.
Proof.
  intros Hsid Hf Hm. unfold postChat, validateSession.
  destruct sid as [|c sid']; [done|]. run_monad. rewrite Hm, Hf. simpl.
  rewrite truthy_default_false.
  destruct (SessionManager.getAnalysis (c :: sid') now (store w)) as [[data|] st'];
    simpl; [|done].
  destruct (truthy f && truthy m).
  - rewrite GatewayProps.handleFollowUp_run. simpl.
    destruct (ToString m) as [e|q]; simpl.
    + by rewrite <- app_assoc.
    + rewrite <- app_assoc. simpl. destruct (followUpResultOf up); done.
  - rewrite GatewayProps.generateSummary_run. simpl.
    rewrite <- app_assoc. simpl. destruct (summaryResultOf up); done.
Qed.

(** C3: when [analyzeImage] reports a failure, POST /api/analyze creates no
    session: the store is left as it was, [storeAnalysis] is not called, and
    the response is a failure ([success: false]) without a [sessionId]. *)
Theorem analyze_failure_creates_no_session (f : UploadedFile)
    (vision : OpenAI.Outcome OpenAI.ChatCompletion) (uuid : jsstring)
    (ts now : Z) (summaryUpstream : OpenAI.Outcome OpenAI.ChatCompletion)
    (w : World) (error : JSValue) (details : jsstring) :
  (AiService.analyzeImage (Base64.encode (buffer f)) (mimetype f) vision w).1
    = inr (AnalysisFailure error details) ->
  exists resp w',
    postAnalyze (Some f) vision uuid ts now summaryUpstream w = (inr resp, w') /\
    field (js "success") resp = Some (JBool false) /\
    field (js "sessionId") resp = None /\
    store w' = store w /\
    exists tr, trace w' = trace w ++ tr /\ Forall (fun ev => ~ isStoreWrite ev) tr.
Proof.
  intros Hfail.
  destruct (GatewayProps.analyzeImage_run (Base64.encode (buffer f)) (mimetype f) vision w)
    as (r & tr & E & Htr & _).
  rewrite E in Hfail. simpl in Hfail. injection Hfail as ->.
  eexists _, _. split; [by apply postAnalyze_after_failure|].
  split; [by vm_compute|]. split; [by vm_compute|]. split; [done|].
  exists tr. split; [done|].
  destruct Htr as [-> | ->]; repeat constructor; simpl; tauto.
Qed.

(** C4 (amended): when [analyzeImage] succeeds and [generateSummary] fails,
    POST /api/analyze still answers 200 with [success: true], with the
    generated identifier under which the analysis is now retrievable, and
    with a non-empty summary.  The summary is the one built from the
    analysis, which contains the product name whenever that is a non-empty
    string, provided it can be built; when building it throws, the summary is
    the fixed last-resort sentence. *)
Theorem analyze_summary_failure_falls_back (f : UploadedFile)
    (vision : OpenAI.Outcome OpenAI.ChatCompletion) (uuid : jsstring)
    (ts now : Z) (summaryUpstream : OpenAI.Outcome OpenAI.ChatCompletion)
    (w : World) (a : JSValue) (error details : jsstring) :
  (AiService.analyzeImage (Base64.encode (buffer f)) (mimetype f) vision w).1
    = inr (AnalysisSuccess a) ->
  (AiService.generateSummary a summaryUpstream w).1
    = inr (SummaryFailure error details) ->
  exists summary w',
    postAnalyze (Some f) vision uuid ts now summaryUpstream w =
      (inr (json 200 [(js "success", JBool true);
                      (js "sessionId", JString uuid);
                      (js "summary", JString summary);
                      (js "hasAnalysis", JBool true);
                      (js "analysis", a)]), w') /\
    (SessionManager.getAnalysis uuid now (store w')).1
      = Some {| SessionManager.analysis := a; SessionManager.timestamp := ts |} /\
    summary <> [] /\
    match fallbackSummary a with
    | inr text =>
        summary = text /\
        forall p, getProp a (js "productName") = inr (JString p) -> p <> [] ->
                  includes p summary
    | inl _ => summary = genericSummary
    end.
Proof.
  intros Hok Hsum.
  destruct (GatewayProps.analyzeImage_run (Base64.encode (buffer f)) (mimetype f) vision w)
    as (r & tr & E & _ & _).
  rewrite E in Hok. simpl in Hok. injection Hok as ->.
  rewrite GatewayProps.generateSummary_run in Hsum. simpl in Hsum.
  injection Hsum as Hsum.
  eexists _, _. split; [by apply postAnalyze_after_success|].
  split; [|split; [apply summaryFor_nonempty|]].
  - simpl. unfold SessionManager.getAnalysis, NodeCache.get.
    rewrite lookup_insert_eq. unfold NodeCache.expired. simpl.
    destruct (Z.eqb_spec (now + 15 * 60 * 1000) 0),
             (Z.ltb_spec (now + 15 * 60 * 1000) now); simpl; try done; lia.
  - rewrite Hsum. unfold summaryFor.
    destruct (fallbackSummary a) as [e|text] eqn:Ef; [done|].
    split; [done|]. intros p Hp Hne.
    apply fallbackSummary_shape in Ef as (pn & q & rest & Hpn & Hq & ->).
    rewrite Hp in Hpn. injection Hpn as <-.
    assert (truthy (JString p) = true) as Ht.
    { simpl. by rewrite bool_decide_eq_false_2. }
    unfold or_else in Hq. rewrite Ht in Hq. simpl in Hq. injection Hq as <-.
    by exists [], (js " contains " ++ rest).
Qed.

(** C5 (amended): when the model's reply parses to a value whose error flag
    is set, POST /api/analyze answers with a structured failure whose status
    is 500, carrying the model's explanation as [error] and a fixed
    [details] text; a call that fails upstream gets status 500 as well. *)
Theorem semantic_failure_answers_500 (f : UploadedFile) (uuid : jsstring)
    (ts now : Z) (summaryUpstream : OpenAI.Outcome OpenAI.ChatCompletion)
    (w : World) (content : jsstring) (others : list OpenAI.Choice)
    (a : JSValue) :
  buffer f <> [] -> startsWith (js "image/") (mimetype f) = true ->
  content <> [] ->
  JSON_parse (AiService.stripFences content) = inr a -> errorFlagSet a ->
  (exists y, getProp a (js "error") = inr y /\
     postAnalyze (Some f) (replyWith content others) uuid ts now summaryUpstream w =
       (inr (json 500
               [(js "success", JBool false);
                (js "error",
                 or_else y (JString (js "Failed to analyze the food label")));
                (js "details", JString AiService.semanticDetails)]),
        {| store := store w;
           trace := trace w ++
             [CallAnalyzeImage;
              Outbound (OpenAI.VisionRequest (mimetype f) (Base64.encode (buffer f)))] |}))
  /\
  (forall e,
     postAnalyze (Some f) (OpenAI.Rejects e) uuid ts now summaryUpstream w =
       (inr (json 500
               [(js "success", JBool false);
                (js "error", JString (js "Failed to analyze image"));
                (js "details", JString (message e))]),
        {| store := store w;
           trace := trace w ++
             [CallAnalyzeImage;
              Outbound (OpenAI.VisionRequest (mimetype f) (Base64.encode (buffer f)))] |})).
Proof.
  intros Hbuf Hmime Hc Hparse Hflag.
  pose proof (encode_nonempty _ Hbuf) as Himg. split.
  - destruct (GatewayProps.parseAnalysis_flagged content a Hparse Hflag)
      as (y & Hy & Hp).
    exists y. split; [done|].
    apply postAnalyze_after_failure.
    rewrite GatewayProps.analyzeImage_replied by done. by rewrite Hp.
  - intros e. apply postAnalyze_after_failure.
    pose proof (GatewayProps.image_mime_nonempty _ Hmime) as Hm.
    unfold AiService.analyzeImage. run_monad.
    rewrite (bool_decide_eq_false_2 _ Himg), (bool_decide_eq_false_2 _ Hm), Hmime.
    simpl. by rewrite <- app_assoc.
Qed.

(** C7 (amended): POST /api/chat without the X-Session-ID header (or with
    an empty one) answers 400 with [success: false] and does nothing else: no
    lookup, no remote call.  With an identifier that the store does not
    resolve it answers 404 with [success: false] after the lookup, without
    any remote call, provided the request has a body to read the fields
    from; when [req.body] is [undefined] or [null], reading the fields throws
    and the request is answered 500 by the catch of the handler, before any
    lookup. *)
Theorem chat_session_header_checks :
  (forall (header : option jsstring) (reqBody : JSValue) (now : Z)
          (up : OpenAI.Outcome OpenAI.ChatCompletion) (w : World),
      header = None \/ header = Some [] ->
      exists resp,
        postChat header reqBody now up w = (inr resp, w) /\
        status resp = 400 /\ field (js "success") resp = Some (JBool false)) /\
  (forall (sid : jsstring) (reqBody : JSValue) (now : Z)
          (up : OpenAI.Outcome OpenAI.ChatCompletion) (w : World),
      sid <> [] -> nullish reqBody = false ->
      (SessionManager.getAnalysis sid now (store w)).1 = None ->
      exists resp,
        postChat (Some sid) reqBody now up w =
          (inr resp,
           {| store := (SessionManager.getAnalysis sid now (store w)).2;
              trace := trace w ++ [CallGetAnalysis sid] |}) /\
        status resp = 404 /\ field (js "success") resp = Some (JBool false)) /\
  (forall (sid : jsstring) (reqBody : JSValue) (now : Z)
          (up : OpenAI.Outcome OpenAI.ChatCompletion) (w : World),
      sid <> [] -> nullish reqBody = true ->
      postChat (Some sid) reqBody now up w =
        (inr (json 500
                [(js "success", JBool false);
                 (js "error", JString (js "Failed to process request"));
                 (js "details", JString (typeErrorMessage reqBody (js "message")))]),
         w)).
Proof.
  split; [|split].
  3:{ intros sid reqBody now up w Hsid Hbody.
      unfold postChat, validateSession. destruct sid as [|c sid]; [done|].
      run_monad. by destruct reqBody. }
  - intros header reqBody now up w Hheader.
    eexists. split; [by apply postChat_no_header|].
    split; [done|by vm_compute].
  - intros sid reqBody now up w Hsid Hbody Hnone.
    destruct (getProp_defined reqBody (js "isFollowUp") Hbody) as [f Hf].
    destruct (getProp_defined reqBody (js "message") Hbody) as [m Hm].
    rewrite (postChat_run sid reqBody now up w f m Hsid Hf Hm). simpl.
    rewrite Hnone. eexists. split; [done|]. split; [done|by vm_compute].
Qed.

Lemma assoc_here (k : jsstring) (v : JSValue) (r : list (jsstring * JSValue)) :
  assoc k ((k, v) :: r) = Some v.
Proof. simpl. by rewrite bool_decide_eq_true_2. Qed.

Lemma assoc_skip (k k' : jsstring) (v : JSValue) (r : list (jsstring * JSValue)) :
  k' <> k -> assoc k ((k', v) :: r) = assoc k r.
Proof. intros Hne. simpl. by rewrite bool_decide_eq_false_2. Qed.

(** POST /api/tts sends whatever voice string it is given, lower-cased: no
    voice is ever rejected. *)
Lemma postTts_sends_any_voice (text : JSValue) (voice : jsstring)
    (audio : list N) (w : World) :
  truthy text = true ->
  postTts (JObject [(js "text", text); (js "voice", JString voice)])
    (OpenAI.Resolves audio) w =
    (inr {| status := 200; body := AudioBody audio |},
     {| store := store w;
        trace := trace w ++
          [CallGenerateSpeech text (JString voice);
           Outbound (OpenAI.SpeechRequest (JString (toLowerCase voice)) text)] |}).
Proof.
  intros Ht. unfold postTts, TtsService.generateSpeech, getProp.
  rewrite assoc_here, assoc_skip, assoc_here by (by vm_compute).
  run_monad. rewrite Ht. simpl. by rewrite <- app_assoc.
Qed.

(** *** What the handlers do to the store *)

Lemma storeClean_store (st : SessionManager.Store) (sid : jsstring)
    (a : JSValue) (ts now : Z) :
  storeClean st -> errorFlagUnset a ->
  storeClean (SessionManager.storeAnalysis sid a ts now st).2.
Proof.
  intros Hst Ha k e. simpl. rewrite lookup_insert.
  case_decide; [by intros [= <-]|apply Hst].
Qed.

Lemma storeClean_get (st : SessionManager.Store) (sid : jsstring) (now : Z) :
  storeClean st -> storeClean (SessionManager.getAnalysis sid now st).2.
Proof.
  intros Hst k e. unfold SessionManager.getAnalysis, NodeCache.get.
  destruct (st !! sid) as [e'|]; [|apply Hst].
  destruct (NodeCache.expired e' now); simpl; [|apply Hst].
  intros Hk. apply lookup_delete_Some in Hk as [_ Hk]. by eapply Hst.
Qed.

Lemma storeClean_sweep (st : SessionManager.Store) (now : Z) :
  storeClean st -> storeClean (NodeCache.checkData now st).
Proof.
  intros Hst k e Hk. unfold NodeCache.checkData in Hk.
  apply map_lookup_filter_Some in Hk as [Hk _]. by eapply Hst.
Qed.

Lemma postAnalyze_store (file : option UploadedFile)
    (vision : OpenAI.Outcome OpenAI.ChatCompletion) (uuid : jsstring)
    (ts now : Z) (summaryUpstream : OpenAI.Outcome OpenAI.ChatCompletion)
    (w : World) :
  store (postAnalyze file vision uuid ts now summaryUpstream w).2 = store w \/
  exists a, errorFlagUnset a /\
    store (postAnalyze file vision uuid ts now summaryUpstream w).2
      = (SessionManager.storeAnalysis uuid a ts now (store w)).2.
Proof.
  destruct file as [f|]; [|by left].
  destruct (GatewayProps.analyzeImage_run (Base64.encode (buffer f)) (mimetype f) vision w)
    as (r & tr & E & _ & Hflag).
  destruct r as [a|err det].
  - right. exists a. split; [by apply Hflag|].
    by rewrite (postAnalyze_after_success _ _ _ _ _ _ _ _ _ E).
  - left. by rewrite (postAnalyze_after_failure _ _ _ _ _ _ _ _ _ _ E).
Qed.

Lemma postChat_store (header : option jsstring) (reqBody : JSValue) (now : Z)
    (up : OpenAI.Outcome OpenAI.ChatCompletion) (w : World) :
  store (postChat header reqBody now up w).2 = store w \/
  exists sid,
    store (postChat header reqBody now up w).2
      = (SessionManager.getAnalysis sid now (store w)).2.
Proof.
  destruct header as [[|c sid]|]; [by left| |by left].
  destruct (getProp reqBody (js "message")) as [e|m] eqn:Hm.
  - left. unfold postChat, validateSession. run_monad. by rewrite Hm.
  - destruct (GatewayProps.getProp_twice _ _ (js "isFollowUp") _ Hm) as [f Hf].
    right. exists (c :: sid).
    rewrite (postChat_run (c :: sid) reqBody now up w f m ltac:(done) Hf Hm).
    simpl. destruct (SessionManager.getAnalysis (c :: sid) now (store w)).1; [|done].
    destruct (truthy f && truthy m); done.
Qed.

Lemma postTts_store (reqBody : JSValue) (up : OpenAI.Outcome (list N)) (w : World) :
  store (postTts reqBody up w).2 = store w.
Proof.
  unfold postTts, TtsService.generateSpeech. run_monad.
  destruct (getProp reqBody (js "text")) as [e|text]; [done|].
  destruct (getProp reqBody (js "voice")) as [e|voice]; [done|]. simpl.
  destruct (truthy text); simpl; [|done].
  destruct (callToLowerCase _) as [e|v]; simpl; [done|].
  destruct up; done.
Qed.

Lemma serve_clean (i : Incoming) (w : World) :
  storeClean (store w) -> storeClean (store (serve i w)).
Proof.
  intros Hw. destruct i as [file vision uuid ts now sumUp | header reqBody now up
                            | reqBody up | now]; simpl.
  - destruct (postAnalyze_store file vision uuid ts now sumUp w)
      as [-> | (a & Ha & ->)]; [done|]. by apply storeClean_store.
  - destruct (postChat_store header reqBody now up w) as [-> | (sid & ->)]; [done|].
    by apply storeClean_get.
  - by rewrite postTts_store.
  - by apply storeClean_sweep.
Qed.

Lemma serveAll_clean (l : list Incoming) (w : World) :
  storeClean (store w) -> storeClean (store (serveAll l w)).
Proof.
  revert w. induction l as [|i l IH]; intros w Hw; [done|].
  simpl. apply IH. by apply serve_clean.
Qed.

(** A success of [analyzeImage] comes from a reply whose text parses to the
    analysis, with the error flag unset. *)
Lemma analyzeImage_success_inv (img mime : jsstring)
    (up : OpenAI.Outcome OpenAI.ChatCompletion) (w : World) (a : JSValue) :
  (AiService.analyzeImage img mime up w).1 = inr (AnalysisSuccess a) ->
  exists content others,
    up = replyWith content others /\
    JSON_parse (AiService.stripFences content) = inr a /\ errorFlagUnset a.
Proof.
  unfold AiService.analyzeImage. run_monad.
  destruct (bool_decide (img = [])); simpl; [done|].
  destruct (bool_decide (mime = []) || negb (startsWith (js "image/") mime));
    simpl; [done|].
  destruct up as [[choices]|e]; simpl; [|done].
  destruct choices as [[|[msg] cs]|]; simpl; try done.
  destruct msg as [[content]|]; simpl; [|done].
  destruct content as [[|c0 content]|]; simpl; try done.
  destruct (AiService.parseAnalysis (c0 :: content)) as [e|r] eqn:E; simpl; [done|].
  intros [= ->]. apply GatewayProps.parseAnalysis_success in E.
  by exists (c0 :: content), cs.
Qed.

(** C9: [analyzeImage] succeeds exactly when the reply, after removal of
    the code fences, parses as JSON to a value whose [isError] and [error]
    are both falsy: a success always comes from such a reply, and once the
    request has been sent and answered with a text, such a reply always
    gives a success.  Consequently every analysis that the server ever
    stores has its error flag unset.  And a parsed reply whose [error] is
    truthy is classified as the semantic failure, whatever [isError] is.
    The removal of the fences is the one of the source: for a reply in a
    fenced block, tagged json or untagged, the text parsed is the trimmed
    body of the block, and for a reply that does not start with a fence it
    is the reply itself. *)
Theorem analysis_success_iff_error_flag_unset :
  (forall (img mime : jsstring) (up : OpenAI.Outcome OpenAI.ChatCompletion)
          (w : World) (a : JSValue),
      (AiService.analyzeImage img mime up w).1 = inr (AnalysisSuccess a) ->
      exists content others,
        up = replyWith content others /\
        JSON_parse (AiService.stripFences content) = inr a /\ errorFlagUnset a) /\
  (forall (img mime content : jsstring) (others : list OpenAI.Choice)
          (w : World) (a : JSValue),
      img <> [] -> startsWith (js "image/") mime = true -> content <> [] ->
      ((AiService.analyzeImage img mime (replyWith content others) w).1
         = inr (AnalysisSuccess a)
       <-> JSON_parse (AiService.stripFences content) = inr a /\ errorFlagUnset a)) /\
  (forall (l : list Incoming) (sid : jsstring)
          (e : NodeCache.Entry SessionManager.SessionRecord),
      store (serveAll l initial) !! sid = Some e ->
      errorFlagUnset (SessionManager.analysis (NodeCache.v e))) /\
  (forall (img mime content : jsstring) (others : list OpenAI.Choice)
          (w : World) (a y : JSValue),
      img <> [] -> startsWith (js "image/") mime = true -> content <> [] ->
      JSON_parse (AiService.stripFences content) = inr a ->
      getProp a (js "error") = inr y -> truthy y = true ->
      (AiService.analyzeImage img mime (replyWith content others) w).1
        = inr (AnalysisFailure y AiService.semanticDetails)) /\
  (forall (img mime body : jsstring) (others : list OpenAI.Choice)
          (w : World) (a : JSValue),
      img <> [] -> startsWith (js "image/") mime = true ->
      ((AiService.analyzeImage img mime (replyWith (fencedJson body) others) w).1
         = inr (AnalysisSuccess a)
       <-> JSON_parse (trim body) = inr a /\ errorFlagUnset a) /\
      ((AiService.analyzeImage img mime (replyWith (fencedPlain body) others) w).1
         = inr (AnalysisSuccess a)
       <-> JSON_parse (trim body) = inr a /\ errorFlagUnset a)) /\
  (forall (img mime content : jsstring) (others : list OpenAI.Choice)
          (w : World) (a : JSValue),
      img <> [] -> startsWith (js "image/") mime = true -> content <> [] ->
      startsWith AiService.fence content = false ->
      ((AiService.analyzeImage img mime (replyWith content others) w).1
         = inr (AnalysisSuccess a)
       <-> JSON_parse content = inr a /\ errorFlagUnset a)).
Proof.
  split; [|split; [|split; [|split; [|split]]]].
  5:{ intros img mime body others w a Himg Hmime. split.
      - rewrite <- (GatewayProps.stripFences_fencedJson body).
        apply GatewayProps.analyzeImage_success_iff;
          first [done | apply GatewayProps.fencedJson_nonempty].
      - rewrite <- (GatewayProps.stripFences_fencedPlain body).
        apply GatewayProps.analyzeImage_success_iff;
          first [done | apply GatewayProps.fencedPlain_nonempty]. }
  5:{ intros img mime content others w a Himg Hmime Hc Hnofence.
      rewrite <- (GatewayProps.stripFences_unfenced content Hnofence) at 2.
      by apply GatewayProps.analyzeImage_success_iff. }
  - apply analyzeImage_success_inv.
  - intros img mime content others w a Himg Hmime Hc.
    rewrite GatewayProps.analyzeImage_replied by done. simpl.
    rewrite <- GatewayProps.parseAnalysis_success.
    destruct (AiService.parseAnalysis content) as [e|r]; [done|].
    split; congruence.
  - intros l sid e. apply serveAll_clean. intros k e'. simpl.
    by rewrite lookup_empty.
  - intros img mime content others w a y Himg Hmime Hc Hparse Hy Ht.
    rewrite GatewayProps.analyzeImage_replied by done. simpl.
    destruct (GatewayProps.getProp_twice _ _ (js "isError") _ Hy) as [x Hx].
    destruct (GatewayProps.parseAnalysis_flagged content a Hparse) as (y' & Hy' & ->).
    { exists x, y. auto. }
    rewrite Hy in Hy'. injection Hy' as <-. unfold or_else. by rewrite Ht.
Qed.

(** C10 (amended): on POST /api/chat with a valid session, when [message]
    is missing, empty or otherwise falsy the request is a plain summary
    request even if [isFollowUp] is true: [handleFollowUp] is not called,
    [generateSummary] is; the response carries [isFollowUp: false] when
    [generateSummary] succeeds, and is the 500 failure, without that field,
    when it fails.  [handleFollowUp] is called exactly when [isFollowUp] and
    [message] are both truthy. *)
Theorem chat_follow_up_needs_message (sid : jsstring) (reqBody : JSValue)
    (now : Z) (up : OpenAI.Outcome OpenAI.ChatCompletion) (w : World)
    (data : SessionManager.SessionRecord) (f m : JSValue) :
  sid <> [] ->
  getProp reqBody (js "isFollowUp") = inr f ->
  getProp reqBody (js "message") = inr m ->
  (SessionManager.getAnalysis sid now (store w)).1 = Some data ->
  exists resp tr,
    postChat (Some sid) reqBody now up w =
      (inr resp,
       {| store := (SessionManager.getAnalysis sid now (store w)).2;
          trace := trace w ++ CallGetAnalysis sid :: tr |}) /\
    (truthy m = false ->
       Forall (fun ev => ~ isFollowUpCall ev) tr /\
       Exists isSummaryCall tr /\
       (forall summary,
          (AiService.generateSummary (SessionManager.analysis data) up w).1
            = inr (SummarySuccess summary) ->
          resp = json 200 [(js "success", JBool true);
                           (js "response", JString summary);
                           (js "isFollowUp", JBool false)]) /\
       (forall error details,
          (AiService.generateSummary (SessionManager.analysis data) up w).1
            = inr (SummaryFailure error details) ->
          resp = json 500 [(js "success", JBool false);
                           (js "error", JString (js "Failed to process request"));
                           (js "details", JString error)])) /\
    (Exists isFollowUpCall tr <-> truthy f = true /\ truthy m = true).
Proof.
  intros Hsid Hf Hm Hdata.
  rewrite (postChat_run sid reqBody now up w f m Hsid Hf Hm). simpl.
  rewrite Hdata.
  destruct (truthy f) eqn:Tf, (truthy m) eqn:Tm; simpl.
  - eexists _, _. split; [reflexivity|]. split; [done|].
    split; [intros _; by split|]. intros _. by constructor.
  - eexists _, _. split; [reflexivity|]. split.
    + intros _. split; [repeat constructor; simpl; tauto|].
      split; [by constructor|].
      rewrite GatewayProps.generateSummary_run. simpl.
      split; [by intros summary [= ->]|by intros error details [= ->]].
    + split; [|by intros [_ [=]]].
      intros Hex. repeat (apply Exists_cons in Hex as [Hex|Hex]; [done|]).
      by apply Exists_nil in Hex.
  - eexists _, _. split; [reflexivity|]. split; [done|].
    split; [|by intros [[=] _]].
    intros Hex. repeat (apply Exists_cons in Hex as [Hex|Hex]; [done|]).
    by apply Exists_nil in Hex.
  - eexists _, _. split; [reflexivity|]. split.
    + intros _. split; [repeat constructor; simpl; tauto|].
      split; [by constructor|].
      rewrite GatewayProps.generateSummary_run. simpl.
      split; [by intros summary [= ->]|by intros error details [= ->]].
    + split; [|by intros [[=] _]].
      intros Hex. repeat (apply Exists_cons in Hex as [Hex|Hex]; [done|]).
      by apply Exists_nil in Hex.
Qed.

End WithEngine.
End ServerProps.

(* ===================================================================== *)
(** ** Worked examples *)
(* ===================================================================== *)

Module Worked.
Import Js JsConv Effects Vocabulary Server Examples.
Import AiService(AnalysisSuccess, AnalysisFailure, SummarySuccess, SummaryFailure,
                 FollowUpSuccess, FollowUpFailure).

Example base64_Man : Base64.encode [77; 97; 110]%N = js "TWFu".
Proof. by vm_compute. Qed.

Example base64_padding : Base64.encode [77; 97]%N = js "TWE=".
Proof. by vm_compute. Qed.

Example stripFences_fenced : AiService.stripFences fencedChocoBarText = chocoBarText.
Proof. by vm_compute. Qed.

Example stripFences_plain : AiService.stripFences chocoBarText = chocoBarText.
Proof. by vm_compute. Qed.

Example join_ingredients :
  callJoin (H := engine) (JArray [JString (js "sugar"); JNull; JString (js "cocoa")])
    (js ", ") = inr (js "sugar, , cocoa").
Proof. by vm_compute. Qed.

(** The scenario of the specification: the label of a Choco Bar is analysed,
    the summary call fails, and the summary is built from the analysis. *)
Example analyze_choco_bar :
  postAnalyze (H := engine) (Some jpeg) (replyWith fencedChocoBarText [])
    uuid 1000 1000 (OpenAI.Rejects overloaded) initial =
  (inr (json 200
          [(js "success", JBool true);
           (js "sessionId", JString uuid);
           (js "summary",
            JString (js "Choco Bar contains sugar, cocoa. It has approximately 200 calories per serving."));
           (js "hasAnalysis", JBool true);
           (js "analysis", chocoBar)]),
   {| store := store withSession;
      trace := [CallAnalyzeImage;
                Outbound (OpenAI.VisionRequest (js "image/jpeg") (js "/9j/"));
                CallStoreAnalysis uuid;
                CallGenerateSummary chocoBar;
                Outbound (OpenAI.SummaryRequest chocoBar)] |}).
Proof. by vm_compute. Qed.

Example chat_follow_up :
  postChat (H := engine) (Some uuid)
    (JObject [(js "isFollowUp", JBool true);
              (js "message", JString (js "Is this vegan?"))])
    2000
    (replyWith (js "  The label lists no certification. ") [])
    withSession =
  (inr (json 200
          [(js "success", JBool true);
           (js "response", JString (js "The label lists no certification."));
           (js "isFollowUp", JBool true)]),
   {| store := store withSession;
      trace := [CallGetAnalysis uuid;
                CallHandleFollowUp chocoBar (JString (js "Is this vegan?"));
                Outbound (OpenAI.FollowUpRequest chocoBar (js "Is this vegan?"))] |}).
Proof. by vm_compute. Qed.

Lemma analyze_failure_creates_no_session_witness :
  exists resp w',
    postAnalyze (H := engine) (Some jpeg) (OpenAI.Rejects overloaded) uuid
      1000 1000 (OpenAI.Rejects overloaded) initial = (inr resp, w') /\
    field (js "success") resp = Some (JBool false) /\
    field (js "sessionId") resp = None /\
    store w' = store initial /\
    exists tr, trace w' = trace initial ++ tr /\
               Forall (fun ev => ~ isStoreWrite ev) tr.
Proof.
  apply (ServerProps.analyze_failure_creates_no_session (H := engine)
           jpeg (OpenAI.Rejects overloaded) uuid 1000 1000
           (OpenAI.Rejects overloaded) initial
           (JString (js "Failed to analyze image")) (js "429 Too Many Requests")).
  by vm_compute.
Defined.

Lemma analyze_summary_failure_falls_back_witness :
  exists summary w',
    postAnalyze (H := engine) (Some jpeg) (replyWith chocoBarText []) uuid
      1000 1000 (OpenAI.Rejects overloaded) initial =
      (inr (json 200 [(js "success", JBool true);
                      (js "sessionId", JString uuid);
                      (js "summary", JString summary);
                      (js "hasAnalysis", JBool true);
                      (js "analysis", chocoBar)]), w') /\
    (SessionManager.getAnalysis uuid 1000 (store w')).1 = Some chocoBarRecord /\
    summary <> [] /\
    match fallbackSummary (H := engine) chocoBar with
    | inr text =>
        summary = text /\
        forall p, getProp (H := engine) chocoBar (js "productName") = inr (JString p) ->
                  p <> [] -> includes p summary
    | inl _ => summary = genericSummary
    end.
Proof.
  apply (ServerProps.analyze_summary_failure_falls_back (H := engine)
           jpeg (replyWith chocoBarText []) uuid 1000 1000
           (OpenAI.Rejects overloaded) initial chocoBar
           (js "Failed to generate summary") (js "429 Too Many Requests")).
  - by vm_compute.
  - by vm_compute.
Defined.

(** C4, the statement as first written fails: the analysis names the product, its
    [ingredients] is a string, so building the summary throws and the
    summary sent is the last-resort sentence, which does not contain the
    product name. *)
Lemma summary_without_product_name_counterexample :
  (AiService.analyzeImage (H := engine) (Base64.encode (buffer jpeg)) (mimetype jpeg)
     (replyWith looseText []) initial).1 = inr (AnalysisSuccess loose) /\
  (AiService.generateSummary (H := engine) loose (OpenAI.Rejects overloaded) initial).1
    = inr (SummaryFailure (js "Failed to generate summary") (js "429 Too Many Requests")) /\
  getProp (H := engine) loose (js "productName") = inr (JString (js "Choco Bar")) /\
  (postAnalyze (H := engine) (Some jpeg) (replyWith looseText []) uuid
     1000 1000 (OpenAI.Rejects overloaded) initial).1 =
    inr (json 200 [(js "success", JBool true);
                   (js "sessionId", JString uuid);
                   (js "summary", JString genericSummary);
                   (js "hasAnalysis", JBool true);
                   (js "analysis", loose)]) /\
  ~ includes (js "Choco Bar") genericSummary.
Proof.
  split; [by vm_compute|]. split; [by vm_compute|]. split; [by vm_compute|].
  split; [by vm_compute|].
  intros (l & r & E).
  assert (Hin : In 67%N genericSummary).
  { rewrite E. apply in_or_app. right. apply in_or_app. left.
    vm_compute. tauto. }
  vm_compute in Hin.
  repeat (destruct Hin as [Hin|Hin]; [discriminate Hin|]). exact Hin.
Qed.

Lemma semantic_failure_answers_500_witness :
  (exists y, getProp (H := engine) unreadable (js "error") = inr y /\
     postAnalyze (H := engine) (Some jpeg) (replyWith unreadableText []) uuid
       1000 1000 (OpenAI.Rejects overloaded) initial =
       (inr (json 500
               [(js "success", JBool false);
                (js "error",
                 or_else y (JString (js "Failed to analyze the food label")));
                (js "details", JString AiService.semanticDetails)]),
        {| store := store initial;
           trace := trace initial ++
             [CallAnalyzeImage;
              Outbound (OpenAI.VisionRequest (mimetype jpeg)
                          (Base64.encode (buffer jpeg)))] |}))
  /\
  (forall e,
     postAnalyze (H := engine) (Some jpeg) (OpenAI.Rejects e) uuid
       1000 1000 (OpenAI.Rejects overloaded) initial =
       (inr (json 500
               [(js "success", JBool false);
                (js "error", JString (js "Failed to analyze image"));
                (js "details", JString (message e))]),
        {| store := store initial;
           trace := trace initial ++
             [CallAnalyzeImage;
              Outbound (OpenAI.VisionRequest (mimetype jpeg)
                          (Base64.encode (buffer jpeg)))] |})).
Proof.
  apply (ServerProps.semantic_failure_answers_500 (H := engine)
           jpeg uuid 1000 1000 (OpenAI.Rejects overloaded) initial
           unreadableText [] unreadable).
  - by vm_compute.
  - by vm_compute.
  - by vm_compute.
  - by vm_compute.
  - exists (JBool true), (JString (js "Not a food label")).
    split; [by vm_compute|]. split; [by vm_compute|]. left. by vm_compute.
Defined.

(** C5, the statement as first written fails: the model answers that the picture is not
    a food label, and the response has status 500. *)
Lemma unreadable_label_status_counterexample :
  JSON_parse (JsEngine := engine) (AiService.stripFences unreadableText)
    = inr unreadable /\
  getProp (H := engine) unreadable (js "isError") = inr (JBool true) /\
  (postAnalyze (H := engine) (Some jpeg) (replyWith unreadableText []) uuid
     1000 1000 (OpenAI.Rejects overloaded) initial).1 =
    inr {| status := 500;
           body := JsonBody (JObject
             [(js "success", JBool false);
              (js "error", JString (js "Not a food label"));
              (js "details", JString AiService.semanticDetails)]) |} /\
  (forall resp,
     (postAnalyze (H := engine) (Some jpeg) (replyWith unreadableText []) uuid
        1000 1000 (OpenAI.Rejects overloaded) initial).1 = inr resp ->
     status resp = 500).
Proof.
  split; [by vm_compute|]. split; [by vm_compute|]. split; [by vm_compute|].
  intros resp. vm_compute. by intros [= <-].
Qed.

(** C6, evaluated where it fails: a request to POST /api/tts with the voice
    "invalid" is not rejected; the speech request is sent with that voice and
    the audio is returned with status 200.  A voice in capitals is sent in
    lower case.  The [generateSpeech] of aiService.js, which the server does
    not use, rejects the same voice before any request is sent. *)
Theorem tts_unknown_voice_reaches_upstream :
  postTts (H := engine)
    (JObject [(js "text", JString (js "Hello")); (js "voice", JString (js "invalid"))])
    (OpenAI.Resolves audio) initial =
    (inr {| status := 200; body := AudioBody audio |},
     {| store := ∅;
        trace := [CallGenerateSpeech (JString (js "Hello")) (JString (js "invalid"));
                  Outbound (OpenAI.SpeechRequest (JString (js "invalid"))
                              (JString (js "Hello")))] |}) /\
  (postTts (H := engine)
     (JObject [(js "text", JString (js "Hello")); (js "voice", JString (js "ALLOY"))])
     (OpenAI.Resolves audio) initial).2 =
    {| store := ∅;
       trace := [CallGenerateSpeech (JString (js "Hello")) (JString (js "ALLOY"));
                 Outbound (OpenAI.SpeechRequest (JString (js "alloy"))
                             (JString (js "Hello")))] |} /\
  AiService.generateSpeech (JString (js "Hello")) (JString (js "invalid"))
    (OpenAI.Resolves audio) initial =
    (inl (mkError
            (js "Failed to generate speech: Invalid voice. Must be one of: alloy, echo, fable, onyx, nova, shimmer")),
     initial).
Proof. split; [by vm_compute|]. split; by vm_compute. Qed.

Lemma chat_session_header_checks_witness :
  (exists resp,
     postChat (H := engine) None (JObject []) 2000 (OpenAI.Rejects overloaded) withSession
       = (inr resp, withSession) /\
     status resp = 400 /\ field (js "success") resp = Some (JBool false)) /\
  (exists resp,
     postChat (H := engine) (Some (js "no-such-session")) (JObject []) 2000
       (OpenAI.Rejects overloaded) withSession =
       (inr resp,
        {| store := (SessionManager.getAnalysis (js "no-such-session") 2000
                       (store withSession)).2;
           trace := trace withSession ++ [CallGetAnalysis (js "no-such-session")] |}) /\
     status resp = 404 /\ field (js "success") resp = Some (JBool false)) /\
  postChat (H := engine) (Some (js "no-such-session")) JNull 2000
    (OpenAI.Rejects overloaded) withSession =
    (inr (json 500
            [(js "success", JBool false);
             (js "error", JString (js "Failed to process request"));
             (js "details",
              JString (typeErrorMessage (JsEngine := engine) JNull (js "message")))]),
     withSession).
Proof.
  destruct (ServerProps.chat_session_header_checks (H := engine))
    as (Hmissing & Hunknown & Hnobody).
  split; [apply Hmissing; by left|].
  split; [apply Hunknown; by vm_compute|].
  apply Hnobody; by vm_compute.
Defined.

(** C7, the statement as first written fails: the request bears an
    identifier that the store does not resolve, but it has no body; reading
    the fields of the body throws, and the response is the 500 failure sent
    by the catch, not a 404, and the store is not even consulted. *)
Lemma chat_unknown_session_without_body_counterexample :
  (SessionManager.getAnalysis (js "no-such-session") 2000 (store withSession)).1
    = None /\
  postChat (H := engine) (Some (js "no-such-session")) JUndefined 2000
    (OpenAI.Rejects overloaded) withSession =
    (inr (json 500
            [(js "success", JBool false);
             (js "error", JString (js "Failed to process request"));
             (js "details",
              JString (js "Cannot read properties (reading 'message')"))]),
     withSession) /\
  (forall resp,
     (postChat (H := engine) (Some (js "no-such-session")) JUndefined 2000
        (OpenAI.Rejects overloaded) withSession).1 = inr resp ->
     status resp <> 404).
Proof.
  split; [by vm_compute|]. split; [by vm_compute|].
  intros resp. vm_compute. by intros [= <-].
Qed.

Lemma analysis_success_iff_error_flag_unset_witness :
  ((AiService.analyzeImage (H := engine) (js "/9j/") (js "image/jpeg")
      (replyWith chocoBarText []) initial).1 = inr (AnalysisSuccess chocoBar)
   <-> JSON_parse (JsEngine := engine) (AiService.stripFences chocoBarText)
         = inr chocoBar
       /\ errorFlagUnset (H := engine) chocoBar) /\
  (AiService.analyzeImage (H := engine) (js "/9j/") (js "image/jpeg")
     (replyWith errorOnlyText []) initial).1
    = inr (AnalysisFailure (JString (js "Label is partly hidden"))
             AiService.semanticDetails) /\
  ((AiService.analyzeImage (H := engine) (js "/9j/") (js "image/jpeg")
      (replyWith (Observations.fencedJson chocoBarText) []) initial).1
     = inr (AnalysisSuccess chocoBar)
   <-> JSON_parse (JsEngine := engine) (trim chocoBarText) = inr chocoBar
       /\ errorFlagUnset (H := engine) chocoBar) /\
  ((AiService.analyzeImage (H := engine) (js "/9j/") (js "image/jpeg")
      (replyWith chocoBarText []) initial).1 = inr (AnalysisSuccess chocoBar)
   <-> JSON_parse (JsEngine := engine) chocoBarText = inr chocoBar
       /\ errorFlagUnset (H := engine) chocoBar).
Proof.
  destruct (ServerProps.analysis_success_iff_error_flag_unset (H := engine))
    as (_ & Hiff & _ & Hflagged & Hfenced & Hunfenced).
  split; [|split; [|split]].
  - apply Hiff; by vm_compute.
  - apply (Hflagged (js "/9j/") (js "image/jpeg") errorOnlyText [] initial errorOnly);
      by vm_compute.
  - apply (Hfenced (js "/9j/") (js "image/jpeg") chocoBarText [] initial chocoBar);
      by vm_compute.
  - apply Hunfenced; by vm_compute.
Defined.

Lemma chat_follow_up_needs_message_witness :
  exists resp tr,
    postChat (H := engine) (Some uuid) (JObject [(js "isFollowUp", JBool true)]) 2000
      (replyWith (js "A chocolate bar.") []) withSession =
      (inr resp,
       {| store := (SessionManager.getAnalysis uuid 2000 (store withSession)).2;
          trace := trace withSession ++ CallGetAnalysis uuid :: tr |}) /\
    (truthy JUndefined = false ->
       Forall (fun ev => ~ isFollowUpCall ev) tr /\
       Exists isSummaryCall tr /\
       (forall summary,
          (AiService.generateSummary (H := engine)
             (SessionManager.analysis chocoBarRecord)
             (replyWith (js "A chocolate bar.") []) withSession).1
            = inr (SummarySuccess summary) ->
          resp = json 200 [(js "success", JBool true);
                           (js "response", JString summary);
                           (js "isFollowUp", JBool false)]) /\
       (forall error details,
          (AiService.generateSummary (H := engine)
             (SessionManager.analysis chocoBarRecord)
             (replyWith (js "A chocolate bar.") []) withSession).1
            = inr (SummaryFailure error details) ->
          resp = json 500 [(js "success", JBool false);
                           (js "error", JString (js "Failed to process request"));
                           (js "details", JString error)])) /\
    (Exists isFollowUpCall tr <-> truthy (JBool true) = true /\ truthy JUndefined = true).
Proof.
  apply (ServerProps.chat_follow_up_needs_message (H := engine) uuid
           (JObject [(js "isFollowUp", JBool true)]) 2000
           (replyWith (js "A chocolate bar.") []) withSession chocoBarRecord
           (JBool true) JUndefined); by vm_compute.
Defined.

(** C10, the statement as first written fails: the session is valid, [isFollowUp] is
    true and there is no [message], but the summary call fails; the response
    is the 500 failure and has no [isFollowUp] field. *)
Lemma chat_summary_failure_counterexample :
  (SessionManager.getAnalysis uuid 2000 (store withSession)).1 = Some chocoBarRecord /\
  (postChat (H := engine) (Some uuid) (JObject [(js "isFollowUp", JBool true)]) 2000
     (OpenAI.Rejects overloaded) withSession).1 =
    inr (json 500 [(js "success", JBool false);
                   (js "error", JString (js "Failed to process request"));
                   (js "details", JString (js "Failed to generate summary"))]) /\
  field (js "isFollowUp")
    (json 500 [(js "success", JBool false);
               (js "error", JString (js "Failed to process request"));
               (js "details", JString (js "Failed to generate summary"))])
    <> Some (JBool false).
Proof. split; [by vm_compute|]. split; by vm_compute. Qed.

End Worked.

(* ===================================================================== *)
(** ** More on the session manager *)
(* ===================================================================== *)

Module SessionLifeCycle.
Import SessionManager SessionStoreProps.

(** X1: [hasSession] answers true exactly when [getAnalysis] would return a
    record, and both leave the store in the same state (an entry found
    expired is dropped by either). *)
Theorem hasSession_agrees_with_getAnalysis (sid : jsstring) (now : Z) (st : Store) :
  ((hasSession sid now st).1 = true <-> is_Some (getAnalysis sid now st).1) /\
  (hasSession sid now st).2 = (getAnalysis sid now st).2.
Proof.
  unfold hasSession, getAnalysis, NodeCache.has, NodeCache.get.
  destruct (st !! sid) as [e|]; [destruct (NodeCache.expired e now)|]; simpl;
    (split; [|done]); split; intros Hx; try done; by destruct Hx.
Qed.

(** X2: storing again under the same identifier replaces the earlier session
    altogether, record and expiry: the store is the one the second write
    alone would give, and a read within the lifetime counted from the second
    write returns the second record. *)
Theorem storeAnalysis_overwrites (sid : jsstring) (a1 a2 : JSValue)
    (ts1 T1 ts2 T2 now : Z) (st : Store) :
  now <= T2 + TTL_ms ->
  (storeAnalysis sid a2 ts2 T2 (storeAnalysis sid a1 ts1 T1 st).2).2
    = (storeAnalysis sid a2 ts2 T2 st).2 /\
  (getAnalysis sid now
     (storeAnalysis sid a2 ts2 T2 (storeAnalysis sid a1 ts1 T1 st).2).2).1
    = Some {| analysis := a2; timestamp := ts2 |}.
Proof.
  intros Hnow.
  assert (Heq : (storeAnalysis sid a2 ts2 T2 (storeAnalysis sid a1 ts1 T1 st).2).2
                = (storeAnalysis sid a2 ts2 T2 st).2).
  { unfold storeAnalysis, NodeCache.set. simpl. apply insert_insert_eq. }
  split; [done|]. rewrite Heq.
  rewrite (getAnalysis_present _ _ _ _ (storeAnalysis_lookup sid a2 ts2 T2 st)).
  assert (NodeCache.expired
            {| NodeCache.t := T2 + TTL_ms;
               NodeCache.v := {| analysis := a2; timestamp := ts2 |} |} now = false)
    as ->; [|done].
  apply expired_false_iff. simpl. lia.
Qed.

Lemma storeAnalysis_overwrites_witness :
  (storeAnalysis (js "abc") (JBool false) 2000000 2000000
     (storeAnalysis (js "abc") (JBool true) 1000 1000 ∅).2).2
    = (storeAnalysis (js "abc") (JBool false) 2000000 2000000 ∅).2 /\
  (getAnalysis (js "abc") 2500000
     (storeAnalysis (js "abc") (JBool false) 2000000 2000000
        (storeAnalysis (js "abc") (JBool true) 1000 1000 ∅).2).2).1
    = Some {| analysis := JBool false; timestamp := 2000000 |}.
Proof.
  apply (storeAnalysis_overwrites (js "abc") (JBool true) (JBool false)
           1000 1000 2000000 2000000 2500000 ∅).
  unfold TTL_ms; simpl; lia.
Defined.

(** X3: sessions are independent: a write under one identifier changes
    nothing of what a read under another identifier returns. *)
Theorem storeAnalysis_other_session (sid sid' : jsstring) (a : JSValue)
    (ts T now : Z) (st : Store) :
  sid <> sid' ->
  (getAnalysis sid' now (storeAnalysis sid a ts T st).2).1
    = (getAnalysis sid' now st).1.
Proof.
  intros Hne. unfold getAnalysis, NodeCache.get, storeAnalysis, NodeCache.set.
  simpl. rewrite lookup_insert_ne by done.
  destruct (st !! sid') as [e|]; [|done]. by destruct (NodeCache.expired e now).
Qed.

Lemma storeAnalysis_other_session_witness :
  (getAnalysis (js "xyz") 2000
     (storeAnalysis (js "abc") JNull 1500 1500
        (storeAnalysis (js "xyz") (JBool true) 1000 1000 ∅).2).2).1
    = (getAnalysis (js "xyz") 2000
         (storeAnalysis (js "xyz") (JBool true) 1000 1000 ∅).2).1.
Proof.
  apply (storeAnalysis_other_session (js "abc") (js "xyz")).
  intros Heq. by vm_compute in Heq.
Defined.

(** X4: the periodic sweep is invisible to readers: a read that follows a
    sweep returns what it would have returned without the sweep. *)
Theorem sweep_invisible_to_reads (sid : jsstring) (swept now : Z) (st : Store) :
  swept <= now ->
  (getAnalysis sid now (NodeCache.checkData swept st)).1
    = (getAnalysis sid now st).1.
Proof.
  intros Hle. unfold getAnalysis, NodeCache.get, NodeCache.checkData.
  destruct (st !! sid) as [e|] eqn:E.
  - destruct (NodeCache.expired e swept) eqn:X.
    + assert (filter (fun kv => NodeCache.expired kv.2 swept = false) st !! sid = None)
        as ->.
      { apply map_lookup_filter_None. right. intros e' He'. simpl.
        rewrite E in He'. injection He' as <-. congruence. }
      assert (NodeCache.expired e now = true) as ->; [|done].
      unfold NodeCache.expired in *.
      destruct (Z.eqb_spec (NodeCache.t e) 0); simpl in *; [done|].
      apply Z.ltb_lt in X. apply Z.ltb_lt. lia.
    + assert (filter (fun kv => NodeCache.expired kv.2 swept = false) st !! sid = Some e)
        as ->; [by apply map_lookup_filter_Some|].
      by destruct (NodeCache.expired e now).
  - assert (filter (fun kv => NodeCache.expired kv.2 swept = false) st !! sid = None)
      as ->; [|done].
    apply map_lookup_filter_None. by left.
Qed.

Lemma sweep_invisible_to_reads_witness :
  (getAnalysis (js "abc") 950000
     (NodeCache.checkData 920000
        (storeAnalysis (js "abc") (JBool true) 1000 1000 ∅).2)).1
    = (getAnalysis (js "abc") 950000
         (storeAnalysis (js "abc") (JBool true) 1000 1000 ∅).2).1.
Proof. apply sweep_invisible_to_reads. lia. Defined.

(** X5: there is no way back for a session: once a read has found nothing
    under an identifier, every later read finds nothing either, whatever
    reads, checks, sweeps and writes of other sessions happen in between and
    whatever the clock shows. *)
Theorem not_found_is_final (sid : jsstring) (now : Z) (st : Store)
    (ops : list StoreOp) (later : Z) :
  (getAnalysis sid now st).1 = None ->
  Forall (fun op => ~ writes sid op) ops ->
  (getAnalysis sid later (runOps ops (getAnalysis sid now st).2)).1 = None.
Proof.
  intros Hnone Hw. apply getAnalysis_absent. apply runOps_absent; [done|].
  revert Hnone. unfold getAnalysis, NodeCache.get.
  destruct (st !! sid) as [e|] eqn:E; [|done].
  destruct (NodeCache.expired e now); simpl; [|done].
  intros _. apply lookup_delete_eq.
Qed.

Lemma not_found_is_final_witness :
  (getAnalysis (js "abc") 500
     (runOps [OpSweep 10; OpGet (js "abc") 20]
        (getAnalysis (js "abc") 902000
           (storeAnalysis (js "abc") (JBool true) 1000 1000 ∅).2).2)).1 = None.
Proof.
  apply not_found_is_final; [by vm_compute|].
  repeat constructor; simpl; tauto.
Defined.

End SessionLifeCycle.

(* ===================================================================== *)
(** ** More on the gateways *)
(* ===================================================================== *)

Module GatewayBehaviour.
Import Js JsConv Effects AiService Vocabulary Observations.

(** X6: a reply wrapped in a fenced code block, tagged json or untagged, is
    unwrapped to its trimmed body; a reply that does not start with a fence
    is handed to the parser as it is, not even trimmed. *)
Theorem stripFences_unwraps :
  (forall body, stripFences (fencedJson body) = trim body) /\
  (forall body, stripFences (fencedPlain body) = trim body) /\
  (forall content, startsWith fence content = false ->
     stripFences content = content).
Proof.
  split; [|split].
  - apply GatewayProps.stripFences_fencedJson.
  - apply GatewayProps.stripFences_fencedPlain.
  - apply GatewayProps.stripFences_unfenced.
Qed.

Lemma stripFences_unwraps_witness :
  stripFences (LF :: fencedJson (js "{}")) = LF :: fencedJson (js "{}").
Proof.
  destruct stripFences_unwraps as (_ & _ & Hplain).
  apply Hplain. by vm_compute.
Defined.

Section WithEngine.
Context `{JsEngine}.

Lemma analyzeImage_bad_input (img mime : jsstring)
    (up : OpenAI.Outcome OpenAI.ChatCompletion) (w : World) :
  img = [] \/ startsWith (js "image/") mime = false ->
  analyzeImage img mime up w =
    (inr (AnalysisFailure (JString (js "Failed to analyze image"))
            (if bool_decide (img = [])
             then js "Invalid image data: base64 string is empty or not a string"
             else js "Invalid MIME type: " ++ mime)),
     {| store := store w; trace := trace w ++ [CallAnalyzeImage] |}).
Proof.
  intros Hbad. unfold analyzeImage. run_monad.
  destruct (bool_decide (img = [])) eqn:Himg; simpl; [done|].
  destruct Hbad as [->|Hm]; [by rewrite bool_decide_eq_true_2 in Himg|].
  rewrite Hm. simpl. by rewrite orb_true_r.
Qed.

(** X7: [analyzeImage] refuses an empty image and a MIME type that does not
    start with image/ before anything is sent: the result is the failure
    "Failed to analyze image" with the reason as details, and the trace shows
    the entry into the function only. *)
Theorem analyzeImage_refuses_bad_input (img mime : jsstring)
    (up : OpenAI.Outcome OpenAI.ChatCompletion) (w : World) :
  img = [] \/ startsWith (js "image/") mime = false ->
  analyzeImage img mime up w =
    (inr (AnalysisFailure (JString (js "Failed to analyze image"))
            (if bool_decide (img = [])
             then js "Invalid image data: base64 string is empty or not a string"
             else js "Invalid MIME type: " ++ mime)),
     {| store := store w; trace := trace w ++ [CallAnalyzeImage] |}).
Proof. apply analyzeImage_bad_input. Qed.

Lemma parseAnalysis_failure_truthy (content : jsstring) (err : JSValue)
    (det : jsstring) :
  parseAnalysis content = inr (AnalysisFailure err det) -> truthy err = true.
Proof.
  unfold parseAnalysis. run_monad.
  destruct (JSON_parse (stripFences content)) as [e|a]; [done|].
  destruct (getProp a (js "isError")) as [e|x]; [done|].
  destruct (if truthy x then _ else _) as [e|flag]; [done|].
  destruct (truthy flag); [|done].
  destruct (getProp a (js "error")) as [e|y]; [done|].
  intros [= <- _]. unfold or_else.
  destruct (truthy y) eqn:Ty; [done|by vm_compute].
Qed.

(** X8: called with an image and a MIME type that are strings, as
    POST /api/analyze calls it, [analyzeImage] always resolves to a result,
    whatever the two strings are and however the call to the remote model
    ends: it does not throw, does not touch the store, calls the client at
    most once, and a failure always carries a truthy [error]. *)
Theorem analyzeImage_always_resolves (img mime : jsstring)
    (up : OpenAI.Outcome OpenAI.ChatCompletion) (w : World) :
  exists r tr,
    analyzeImage img mime up w =
      (inr r, {| store := store w; trace := trace w ++ tr |}) /\
    (outboundCount tr <= 1)%nat /\
    Forall (fun ev => ~ isSessionAccess ev) tr /\
    (forall err det, r = AnalysisFailure err det -> truthy err = true).
Proof.
  assert (Hshort : forall tr,
            tr = [CallAnalyzeImage] \/
            tr = [CallAnalyzeImage; Outbound (OpenAI.VisionRequest mime img)] ->
            (outboundCount tr <= 1)%nat /\
            Forall (fun ev => ~ isSessionAccess ev) tr).
  { intros tr [-> | ->]; (split; [vm_compute; lia|]);
      repeat constructor; simpl; tauto. }
  unfold analyzeImage. run_monad.
  destruct (bool_decide (img = [])); simpl.
  { eexists _, _. split; [reflexivity|].
    split; [apply Hshort; by left|]. split; [apply Hshort; by left|].
    by intros err det [= <- _]. }
  destruct (bool_decide (mime = []) || negb (startsWith (js "image/") mime)); simpl.
  { eexists _, _. split; [reflexivity|].
    split; [apply Hshort; by left|]. split; [apply Hshort; by left|].
    by intros err det [= <- _]. }
  rewrite <- app_assoc. simpl.
  assert (Hfail : forall d,
    exists r tr,
      (inr (AnalysisFailure (JString (js "Failed to analyze image")) d) : Exc AnalysisResult,
       {| store := store w;
          trace := trace w ++
            [CallAnalyzeImage; Outbound (OpenAI.VisionRequest mime img)] |})
        = (inr r, {| store := store w; trace := trace w ++ tr |}) /\
      (outboundCount tr <= 1)%nat /\
      Forall (fun ev => ~ isSessionAccess ev) tr /\
      (forall err det, r = AnalysisFailure err det -> truthy err = true)).
  { intros d. eexists _, _. split; [reflexivity|].
    split; [apply Hshort; by right|]. split; [apply Hshort; by right|].
    by intros err det [= <- _]. }
  destruct up as [response|e]; simpl; [|apply Hfail].
  destruct (OpenAI.choices response) as [[|c cs]|]; simpl; try apply Hfail.
  destruct (OpenAI.message c) as [m|]; simpl; [|apply Hfail].
  destruct (OpenAI.content m) as [[|c0 content]|]; simpl; try apply Hfail.
  destruct (parseAnalysis (c0 :: content)) as [e|r] eqn:E; simpl; [apply Hfail|].
  eexists _, _. split; [reflexivity|].
  split; [apply Hshort; by right|]. split; [apply Hshort; by right|].
  intros err det ->. by eapply parseAnalysis_failure_truthy.
Qed.

(** X9: the shape of the analysis is not checked.  Once the request has been
    sent and answered, a reply that parses to a number, a string, a boolean
    or an array is returned as a successful analysis, and so is an object
    that has neither [isError] nor [error]; a reply that parses to [null] is
    reported as a parse failure. *)
Theorem analyzeImage_checks_no_shape (img mime content : jsstring)
    (others : list OpenAI.Choice) (w : World) (a : JSValue) :
  img <> [] -> startsWith (js "image/") mime = true -> content <> [] ->
  JSON_parse (stripFences content) = inr a ->
  match a with
  | JUndefined | JNull =>
      (analyzeImage img mime (replyWith content others) w).1 =
        inr (AnalysisFailure (JString (js "Failed to analyze image"))
               (js "Failed to parse API response: "
                ++ typeErrorMessage a (js "isError")))
  | JObject props =>
      assoc (js "isError") props = None -> assoc (js "error") props = None ->
      (analyzeImage img mime (replyWith content others) w).1 = inr (AnalysisSuccess a)
  | _ => (analyzeImage img mime (replyWith content others) w).1 = inr (AnalysisSuccess a)
  end.
Proof.
  intros Himg Hmime Hc Hparse.
  rewrite GatewayProps.analyzeImage_replied by done. simpl.
  unfold parseAnalysis. run_monad. rewrite Hparse.
  destruct a; simpl; try done.
  intros -> ->. done.
Qed.

End WithEngine.

Lemma analyzeImage_refuses_bad_input_witness :
  analyzeImage (H := Examples.engine) (js "/9j/") (js "text/plain")
    (replyWith Examples.chocoBarText []) Server.initial =
    (inr (AnalysisFailure (JString (js "Failed to analyze image"))
            (js "Invalid MIME type: text/plain")),
     {| store := ∅; trace := [CallAnalyzeImage] |}).
Proof.
  rewrite (analyzeImage_refuses_bad_input (H := Examples.engine));
    [by vm_compute | right; by vm_compute].
Defined.

Lemma analyzeImage_checks_no_shape_witness :
  (analyzeImage (H := Examples.engine) (js "/9j/") (js "image/png")
     (replyWith Examples.chocoBarText []) Server.initial).1
    = inr (AnalysisSuccess Examples.chocoBar).
Proof.
  apply (analyzeImage_checks_no_shape (H := Examples.engine) (js "/9j/")
           (js "image/png") Examples.chocoBarText [] Server.initial
           Examples.chocoBar); by vm_compute.
Defined.

Section Conversation.
Context `{JsEngine}.

(** X10: [generateSummary] always resolves to a result after sending exactly
    one request, and leaves the store alone.  The result is a success with
    the trimmed text of the first choice when the call delivers one (an empty
    text included), and the failure "Failed to generate summary" otherwise,
    with the message of the error as details when the call is rejected. *)
Theorem generateSummary_behaviour (a : JSValue)
    (up : OpenAI.Outcome OpenAI.ChatCompletion) (w : World) :
  exists r,
    generateSummary a up w =
      (inr r,
       {| store := store w;
          trace := trace w ++ [CallGenerateSummary a;
                               Outbound (OpenAI.SummaryRequest a)] |}) /\
    (forall content others,
       up = replyWith content others -> r = SummarySuccess (trim content)) /\
    (forall e, up = OpenAI.Rejects e ->
       r = SummaryFailure (js "Failed to generate summary") (message e)) /\
    ((forall content others, up <> replyWith content others) ->
       exists details, r = SummaryFailure (js "Failed to generate summary") details).
Proof.
  rewrite GatewayProps.generateSummary_run. eexists. split; [reflexivity|].
  split; [by intros content others ->|]. split; [by intros e ->|].
  intros Hno. unfold summaryResultOf.
  destruct up as [[choices]|e]; [|by eexists].
  unfold firstContentTrimmed. simpl.
  destruct choices as [[|[msg] cs]|]; try by eexists.
  destruct msg as [[content]|]; simpl; [|by eexists].
  destruct content as [text|]; [|by eexists].
  by destruct (Hno text cs).
Qed.

(** X11: [handleFollowUp] always resolves to a result and leaves the store
    alone.  The question is turned into a string first, while the prompt is
    built: when that throws, the result is the failure and the client is not
    called; otherwise the client is called exactly once, and the result is
    the trimmed text of the reply or the failure
    "Failed to process follow-up question". *)
Theorem handleFollowUp_behaviour (a q : JSValue)
    (up : OpenAI.Outcome OpenAI.ChatCompletion) (w : World) :
  (forall e, ToString q = inl e ->
     handleFollowUp a q up w =
       (inr (FollowUpFailure (js "Failed to process follow-up question") (message e)),
        {| store := store w; trace := trace w ++ [CallHandleFollowUp a q] |})) /\
  (forall text, ToString q = inr text ->
     exists r call,
       handleFollowUp a q up w =
         (inr r,
          {| store := store w;
             trace := trace w ++ [CallHandleFollowUp a q; Outbound call] |}) /\
       (forall content others,
          up = replyWith content others -> r = FollowUpSuccess (trim content)) /\
       (forall e, up = OpenAI.Rejects e ->
          r = FollowUpFailure (js "Failed to process follow-up question") (message e))).
Proof.
  split.
  - intros e He. by rewrite GatewayProps.handleFollowUp_run, He.
  - intros text Ht. rewrite GatewayProps.handleFollowUp_run, Ht.
    eexists _, _. split; [reflexivity|]. split; [by intros content others ->|].
    by intros e ->.
Qed.

End Conversation.

Lemma generateSummary_behaviour_witness :
  exists r,
    generateSummary (H := Examples.engine) Examples.chocoBar
      (replyWith (js " A chocolate bar. ") []) Server.initial =
      (inr r,
       {| store := ∅;
          trace := [CallGenerateSummary Examples.chocoBar;
                    Outbound (OpenAI.SummaryRequest Examples.chocoBar)] |}) /\
    r = SummarySuccess (js "A chocolate bar.").
Proof.
  destruct (generateSummary_behaviour (H := Examples.engine) Examples.chocoBar
              (replyWith (js " A chocolate bar. ") []) Server.initial)
    as (r & Hrun & Hok & _).
  exists r. split; [exact Hrun|]. by rewrite (Hok _ _ eq_refl).
Defined.

Lemma handleFollowUp_behaviour_witness :
  handleFollowUp (H := Examples.engine) Examples.chocoBar
    (JObject [(js "toString", JNull)]) (replyWith (js "Yes.") []) Server.initial =
    (inr (FollowUpFailure (js "Failed to process follow-up question")
            (js "Cannot read properties (reading 'toString')")),
     {| store := ∅;
        trace := [CallHandleFollowUp Examples.chocoBar
                    (JObject [(js "toString", JNull)])] |}).
Proof.
  destruct (handleFollowUp_behaviour (H := Examples.engine) Examples.chocoBar
              (JObject [(js "toString", JNull)]) (replyWith (js "Yes.") [])
              Server.initial) as [Hthrows _].
  rewrite (Hthrows (mkError (js "Cannot read properties (reading 'toString')")));
    by vm_compute.
Defined.

(** X12: the [generateSpeech] of aiService.js accepts exactly the six voice
    names, spelled in lower case: for any other value it throws before
    anything is sent, for an accepted one it sends one request with the
    voice as given; an absent voice stands for alloy.  A failure of the call
    is thrown again with its message kept. *)
Theorem aiService_generateSpeech_validates (text voice : JSValue)
    (up : OpenAI.Outcome (list N)) (w : World) :
  voice <> JUndefined ->
  (isValidVoice voice = true <-> exists s, voice = JString s /\ s ∈ validVoices) /\
  (isValidVoice voice = false ->
     generateSpeech text voice up w =
       (inl (mkError
               (js "Failed to generate speech: Invalid voice. Must be one of: alloy, echo, fable, onyx, nova, shimmer")),
        w)) /\
  (isValidVoice voice = true ->
     generateSpeech text voice up w =
       (match up with
        | OpenAI.Resolves audio => inr audio
        | OpenAI.Rejects e =>
            inl (mkError (js "Failed to generate speech: " ++ message e))
        end,
        {| store := store w;
           trace := trace w ++ [Outbound (OpenAI.SpeechRequest voice text)] |})) /\
  generateSpeech text JUndefined up w = generateSpeech text (JString (js "alloy")) up w.
Proof.
  intros Hdef. split; [|split; [|split]].
  - unfold isValidVoice. destruct voice; try (split; [done|by intros (s0 & [=] & _)]).
    rewrite bool_decide_eq_true. split; [by eauto|]. by intros (s0 & [= <-] & Hs).
  - intros Hbad. unfold generateSpeech. run_monad.
    replace (match voice with JUndefined => JString (js "alloy") | _ => voice end)
      with voice by (by destruct voice).
    rewrite Hbad. simpl. destruct w. by f_equal.
  - intros Hok. unfold generateSpeech. run_monad.
    replace (match voice with JUndefined => JString (js "alloy") | _ => voice end)
      with voice by (by destruct voice).
    rewrite Hok. simpl. by destruct up.
  - done.
Qed.

Lemma aiService_generateSpeech_validates_witness :
  generateSpeech (JString (js "Hello")) (JString (js "Alloy"))
    (OpenAI.Resolves Examples.audio) Server.initial =
    (inl (mkError
            (js "Failed to generate speech: Invalid voice. Must be one of: alloy, echo, fable, onyx, nova, shimmer")),
     Server.initial).
Proof.
  destruct (aiService_generateSpeech_validates (JString (js "Hello"))
              (JString (js "Alloy")) (OpenAI.Resolves Examples.audio)
              Server.initial ltac:(done)) as (_ & Hbad & _).
  apply Hbad. by vm_compute.
Defined.

Section Speech.
Context `{JsEngine}.

(** X13: the [generateSpeech] of ttsService.js.  A falsy text is refused with
    "No text provided for TTS" before anything is sent.  No voice is refused:
    a voice that is a string is sent in lower case (an absent one as alloy),
    and a voice that is not a string makes the function throw
    "Failed to generate speech" before anything is sent.  A failure of the
    call is thrown as "Failed to generate speech", its own message dropped. *)
Theorem ttsService_generateSpeech_behaviour (text voice : JSValue)
    (up : OpenAI.Outcome (list N)) (w : World) :
  let v := match voice with JUndefined => JString (js "alloy") | _ => voice end in
  (truthy text = false ->
     TtsService.generateSpeech text voice up w =
       (inl (mkError (js "No text provided for TTS")),
        {| store := store w; trace := trace w ++ [CallGenerateSpeech text v] |})) /\
  (truthy text = true -> (forall s, v <> JString s) ->
     TtsService.generateSpeech text voice up w =
       (inl (mkError (js "Failed to generate speech")),
        {| store := store w; trace := trace w ++ [CallGenerateSpeech text v] |})) /\
  (truthy text = true -> forall s, v = JString s ->
     TtsService.generateSpeech text voice up w =
       (match up with
        | OpenAI.Resolves audio => inr audio
        | OpenAI.Rejects _ => inl (mkError (js "Failed to generate speech"))
        end,
        {| store := store w;
           trace := trace w ++
             [CallGenerateSpeech text v;
              Outbound (OpenAI.SpeechRequest (JString (toLowerCase s)) text)] |})).
Proof.
  intros v. unfold TtsService.generateSpeech. fold v. run_monad.
  split; [|split].
  - by intros ->.
  - intros -> Hns. simpl. destruct v; simpl; try done. by destruct (Hns s).
  - intros -> s ->. simpl. rewrite <- app_assoc. simpl. by destruct up.
Qed.

End Speech.

Lemma ttsService_generateSpeech_behaviour_witness :
  TtsService.generateSpeech (H := Examples.engine) (JString (js "Hello"))
    (JNumber 200) (OpenAI.Resolves Examples.audio) Server.initial =
    (inl (mkError (js "Failed to generate speech")),
     {| store := ∅;
        trace := [CallGenerateSpeech (JString (js "Hello")) (JNumber 200)] |}).
Proof.
  destruct (ttsService_generateSpeech_behaviour (H := Examples.engine)
              (JString (js "Hello")) (JNumber 200)
              (OpenAI.Resolves Examples.audio) Server.initial) as (_ & Hns & _).
  apply Hns; [by vm_compute|]. intros s. simpl. discriminate.
Defined.

Lemma analyzeImage_always_resolves_witness :
  exists r tr,
    analyzeImage (H := Examples.engine) (js "/9j/") (js "image/png")
      (replyWith Examples.unreadableText []) Server.initial =
      (inr r, {| store := store Server.initial;
                 trace := trace Server.initial ++ tr |}) /\
    (outboundCount tr <= 1)%nat /\
    Forall (fun ev => ~ isSessionAccess ev) tr /\
    (forall err det, r = AnalysisFailure err det -> truthy err = true).
Proof. apply (analyzeImage_always_resolves (H := Examples.engine)). Defined.

End GatewayBehaviour.

(* ===================================================================== *)
(** ** More on the request handlers *)
(* ===================================================================== *)

Module ServerBehaviour.
Import Js JsConv Effects Vocabulary Observations Server.
Import AiService(AnalysisSuccess, AnalysisFailure, SummarySuccess, SummaryFailure,
                 FollowUpSuccess, FollowUpFailure).

Lemma supported_is_image (mimetype : jsstring) :
  mimetype ∈ SUPPORTED_IMAGE_TYPES -> startsWith (js "image/") mimetype = true.
Proof.
  unfold SUPPORTED_IMAGE_TYPES. rewrite !elem_of_cons, elem_of_nil.
  intros [-> | [-> | [-> | [-> | []]]]]; by vm_compute.
Qed.

Section WithEngine.
Context `{JsEngine}.

(** [analyzeImage] sends its request whenever the image is not empty and
    the MIME type starts with image/. *)
Lemma analyzeImage_sends (img mime : jsstring)
    (up : OpenAI.Outcome OpenAI.ChatCompletion) (w : World) :
  img <> [] -> startsWith (js "image/") mime = true ->
  exists r,
    AiService.analyzeImage img mime up w =
      (inr r,
       {| store := store w;
          trace := trace w ++
            [CallAnalyzeImage; Outbound (OpenAI.VisionRequest mime img)] |}).
Proof.
  intros Himg Hmime.
  pose proof (GatewayProps.image_mime_nonempty _ Hmime) as Hm.
  unfold AiService.analyzeImage. run_monad.
  rewrite (bool_decide_eq_false_2 _ Himg), (bool_decide_eq_false_2 _ Hm), Hmime.
  simpl. rewrite <- app_assoc. simpl.
  destruct up as [response|e]; simpl; [|by eexists].
  destruct (OpenAI.choices response) as [[|c cs]|]; simpl; try by eexists.
  destruct (OpenAI.message c) as [m|]; simpl; [|by eexists].
  destruct (OpenAI.content m) as [[|c0 content]|]; simpl; try by eexists.
  destruct (AiService.parseAnalysis (c0 :: content)); by eexists.
Qed.

(** X14: the upload filter accepts exactly the four listed image types and
    answers "Unsupported file type" for anything else; whatever it accepts
    also passes the MIME check of [analyzeImage], so for an accepted upload
    that is not empty the request to the vision model is always sent. *)
Theorem upload_filter_agrees_with_gateway (f : UploadedFile)
    (up : OpenAI.Outcome OpenAI.ChatCompletion) (w : World) :
  (fileFilter (mimetype f) = inr true <-> mimetype f ∈ SUPPORTED_IMAGE_TYPES) /\
  (mimetype f ∉ SUPPORTED_IMAGE_TYPES ->
     fileFilter (mimetype f) = inl (mkError (js "Unsupported file type"))) /\
  (fileFilter (mimetype f) = inr true -> buffer f <> [] ->
     exists r,
       AiService.analyzeImage (Base64.encode (buffer f)) (mimetype f) up w =
         (inr r,
          {| store := store w;
             trace := trace w ++
               [CallAnalyzeImage;
                Outbound (OpenAI.VisionRequest (mimetype f)
                            (Base64.encode (buffer f)))] |})).
Proof.
  assert (Hiff : fileFilter (mimetype f) = inr true <->
                 mimetype f ∈ SUPPORTED_IMAGE_TYPES).
  { unfold fileFilter. case_bool_decide; split; try done. }
  split; [done|]. split.
  - intros Hno. unfold fileFilter. by rewrite bool_decide_eq_false_2.
  - intros Hok Hbuf. apply analyzeImage_sends.
    + by apply ServerProps.encode_nonempty.
    + apply supported_is_image. by apply Hiff.
Qed.

(** X15: POST /api/analyze on a request without a file answers 400 with
    [success: false] and does nothing else; on an upload whose buffer is
    empty it answers 500 "Failed to analyze image" without sending anything
    to the model and without creating a session. *)
Theorem postAnalyze_without_image (vision : OpenAI.Outcome OpenAI.ChatCompletion)
    (uuid : jsstring) (ts now : Z)
    (summaryUpstream : OpenAI.Outcome OpenAI.ChatCompletion) (w : World) :
  postAnalyze None vision uuid ts now summaryUpstream w =
    (inr (json 400
            [(js "success", JBool false);
             (js "error", JString (js "No file uploaded or unsupported file type"))]),
     w) /\
  (forall f, buffer f = [] ->
     postAnalyze (Some f) vision uuid ts now summaryUpstream w =
       (inr (json 500
               [(js "success", JBool false);
                (js "error", JString (js "Failed to analyze image"));
                (js "details",
                 JString (js "Invalid image data: base64 string is empty or not a string"))]),
        {| store := store w; trace := trace w ++ [CallAnalyzeImage] |})).
Proof.
  split; [done|]. intros f Hbuf.
  apply ServerProps.postAnalyze_after_failure.
  rewrite GatewayBehaviour.analyzeImage_bad_input by (left; by rewrite Hbuf).
  by rewrite Hbuf.
Qed.

(** X16: POST /api/analyze never touches a session other than the one of the
    identifier it generates: every other entry of the store is exactly as
    before, whatever the request and the remote services do. *)
Theorem postAnalyze_keeps_other_sessions (file : option UploadedFile)
    (vision : OpenAI.Outcome OpenAI.ChatCompletion) (uuid : jsstring)
    (ts now : Z) (summaryUpstream : OpenAI.Outcome OpenAI.ChatCompletion)
    (w : World) (sid : jsstring) :
  sid <> uuid ->
  store (postAnalyze file vision uuid ts now summaryUpstream w).2 !! sid
    = store w !! sid.
Proof.
  intros Hne.
  destruct (ServerProps.postAnalyze_store file vision uuid ts now summaryUpstream w)
    as [-> | (a & _ & ->)]; [done|].
  simpl. by rewrite lookup_insert_ne.
Qed.

Lemma postChat_store_of_header (header : option jsstring) (reqBody : JSValue)
    (now : Z) (up : OpenAI.Outcome OpenAI.ChatCompletion) (w : World) :
  store (postChat header reqBody now up w).2 = store w \/
  exists sid, header = Some sid /\
    store (postChat header reqBody now up w).2
      = (SessionManager.getAnalysis sid now (store w)).2.
Proof.
  destruct header as [[|c sid]|]; [by left| |by left].
  destruct (getProp reqBody (js "message")) as [e|m] eqn:Hm.
  - left. unfold postChat, validateSession. run_monad. by rewrite Hm.
  - destruct (GatewayProps.getProp_twice _ _ (js "isFollowUp") _ Hm) as [f Hf].
    right. exists (c :: sid). split; [done|].
    rewrite (ServerProps.postChat_run (c :: sid) reqBody now up w f m ltac:(done) Hf Hm).
    simpl. destruct (SessionManager.getAnalysis (c :: sid) now (store w)).1; [|done].
    destruct (truthy f && truthy m); done.
Qed.

Lemma postChat_store_shrinks (header : option jsstring) (reqBody : JSValue)
    (now : Z) (up : OpenAI.Outcome OpenAI.ChatCompletion) (w : World) :
  (forall k e, store (postChat header reqBody now up w).2 !! k = Some e ->
               store w !! k = Some e) /\
  (forall k, header <> Some k ->
             store (postChat header reqBody now up w).2 !! k = store w !! k).
Proof.
  destruct (postChat_store_of_header header reqBody now up w)
    as [-> | (sid & -> & ->)]; [done|].
  unfold SessionManager.getAnalysis, NodeCache.get.
  destruct (store w !! sid) as [e'|]; [|done].
  destruct (NodeCache.expired e' now); simpl; [|done]. split.
  - intros k e Hk. apply lookup_delete_Some in Hk. tauto.
  - intros k Hk. apply lookup_delete_ne. congruence.
Qed.

(** X17: POST /api/chat never creates or changes a session.  Every entry of
    the store after the request was there before, unchanged; and an entry
    under an identifier other than the one in the header is never removed
    either. *)
Theorem postChat_never_writes (header : option jsstring) (reqBody : JSValue)
    (now : Z) (up : OpenAI.Outcome OpenAI.ChatCompletion) (w : World) :
  (forall k e, store (postChat header reqBody now up w).2 !! k = Some e ->
               store w !! k = Some e) /\
  (forall k, header <> Some k ->
             store (postChat header reqBody now up w).2 !! k = store w !! k).
Proof. apply postChat_store_shrinks. Qed.

End WithEngine.

Lemma upload_filter_agrees_with_gateway_witness :
  exists r,
    AiService.analyzeImage (H := Examples.engine)
      (Base64.encode (buffer Examples.jpeg)) (mimetype Examples.jpeg)
      (OpenAI.Rejects Examples.overloaded) initial =
      (inr r,
       {| store := store initial;
          trace := trace initial ++
            [CallAnalyzeImage;
             Outbound (OpenAI.VisionRequest (mimetype Examples.jpeg)
                         (Base64.encode (buffer Examples.jpeg)))] |}).
Proof.
  destruct (upload_filter_agrees_with_gateway (H := Examples.engine) Examples.jpeg
              (OpenAI.Rejects Examples.overloaded) initial) as (_ & _ & Hsent).
  apply Hsent; by vm_compute.
Defined.

Lemma postAnalyze_without_image_witness :
  postAnalyze (H := Examples.engine)
    (Some {| buffer := []; mimetype := js "image/png" |})
    (replyWith Examples.chocoBarText []) Examples.uuid 1000 1000
    (OpenAI.Rejects Examples.overloaded) initial =
    (inr (json 500
            [(js "success", JBool false);
             (js "error", JString (js "Failed to analyze image"));
             (js "details",
              JString (js "Invalid image data: base64 string is empty or not a string"))]),
     {| store := store initial; trace := trace initial ++ [CallAnalyzeImage] |}).
Proof.
  destruct (postAnalyze_without_image (H := Examples.engine)
              (replyWith Examples.chocoBarText []) Examples.uuid 1000 1000
              (OpenAI.Rejects Examples.overloaded) initial) as [_ Hempty].
  by apply Hempty.
Defined.

Lemma postAnalyze_keeps_other_sessions_witness :
  store (postAnalyze (H := Examples.engine) (Some Examples.jpeg)
           (replyWith Examples.looseText []) (js "another-id") 5000 5000
           (OpenAI.Rejects Examples.overloaded) Examples.withSession).2
    !! Examples.uuid
    = store Examples.withSession !! Examples.uuid.
Proof.
  apply (postAnalyze_keeps_other_sessions (H := Examples.engine)).
  intros Heq. by vm_compute in Heq.
Defined.

Lemma postChat_never_writes_witness :
  store (postChat (H := Examples.engine) (Some (js "other")) (JObject []) 2000
           (OpenAI.Rejects Examples.overloaded) Examples.withSession).2
    !! Examples.uuid
    = store Examples.withSession !! Examples.uuid.
Proof.
  destruct (postChat_never_writes (H := Examples.engine) (Some (js "other"))
              (JObject []) 2000 (OpenAI.Rejects Examples.overloaded)
              Examples.withSession) as [_ Hother].
  apply Hother. intros Heq. by vm_compute in Heq.
Defined.

End ServerBehaviour.

(* ===================================================================== *)
(** ** The requests together *)
(* ===================================================================== *)

Module Orchestration.
Import Js JsConv Effects Vocabulary Observations Server.
Import AiService(AnalysisSuccess, AnalysisFailure, SummarySuccess, SummaryFailure,
                 FollowUpSuccess, FollowUpFailure).

Lemma getAnalysis_found_keeps_store (sid : jsstring) (now : Z)
    (st : SessionManager.Store) (data : SessionManager.SessionRecord) :
  (SessionManager.getAnalysis sid now st).1 = Some data ->
  (SessionManager.getAnalysis sid now st).2 = st.
Proof.
  unfold SessionManager.getAnalysis, NodeCache.get.
  destruct (st !! sid) as [e|]; [|done]. by destruct (NodeCache.expired e now).
Qed.

Section WithEngine.
Context `{JsEngine}.

(** POST /api/tts in full. *)
Lemma postTts_cases (reqBody : JSValue) (up : OpenAI.Outcome (list N)) (w : World) :
  exists resp tr,
    postTts reqBody up w =
      (inr resp, {| store := store w; trace := trace w ++ tr |}) /\
    Forall (fun ev => ~ isSessionAccess ev) tr /\
    (outboundCount tr <= 1)%nat /\
    (status resp = 200 \/ status resp = 400 \/ status resp = 500) /\
    (status resp = 200 ->
       exists audio, up = OpenAI.Resolves audio /\ body resp = AudioBody audio) /\
    (forall text, getProp reqBody (js "text") = inr text -> truthy text = false ->
       resp = json 400 [(js "error", JString (js "Text is required"))] /\ tr = []).
Proof.
  unfold postTts, TtsService.generateSpeech. run_monad.
  destruct w as [st tr0]. simpl.
  destruct (getProp reqBody (js "text")) as [e|text] eqn:Htext; simpl.
  { eexists _, []. rewrite app_nil_r. split; [reflexivity|].
    split; [constructor|]. split; [vm_compute; lia|].
    split; [by right; right|]. split; [by intros [=]|by intros ? [=]]. }
  destruct (GatewayProps.getProp_twice _ _ (js "voice") _ Htext) as [voice ->].
  simpl. destruct (truthy text) eqn:Ttext; simpl.
  2:{ eexists _, []. rewrite app_nil_r. split; [reflexivity|].
      split; [constructor|]. split; [vm_compute; lia|].
      split; [by right; left|]. split; [by intros [=]|by intros ? [= <-] _]. }
  destruct (callToLowerCase _) as [e|v]; simpl.
  { eexists _, [_]. split; [reflexivity|].
    split; [repeat constructor; simpl; tauto|]. split; [vm_compute; lia|].
    split; [by right; right|]. split; [by intros [=]|].
    intros ? [= <-] ?. congruence. }
  rewrite <- app_assoc. simpl. destruct up as [audio|e]; simpl.
  - eexists _, [_; _]. split; [reflexivity|].
    split; [repeat constructor; simpl; tauto|]. split; [vm_compute; lia|].
    split; [by left|]. split; [by eexists|].
    intros ? [= <-] ?. congruence.
  - eexists _, [_; _]. split; [reflexivity|].
    split; [repeat constructor; simpl; tauto|]. split; [vm_compute; lia|].
    split; [by right; right|]. split; [by intros [=]|].
    intros ? [= <-] ?. congruence.
Qed.

(** X18: POST /api/tts always answers, with status 200, 400 or 500; it never
    reads or writes a session and sends at most one request.  It answers 200
    only with the audio the speech service delivered, and a request whose
    text is missing or empty is answered 400 before anything is sent. *)
Theorem postTts_behaviour (reqBody : JSValue) (up : OpenAI.Outcome (list N))
    (w : World) :
  exists resp tr,
    postTts reqBody up w =
      (inr resp, {| store := store w; trace := trace w ++ tr |}) /\
    Forall (fun ev => ~ isSessionAccess ev) tr /\
    (outboundCount tr <= 1)%nat /\
    (status resp = 200 \/ status resp = 400 \/ status resp = 500) /\
    (status resp = 200 ->
       exists audio, up = OpenAI.Resolves audio /\ body resp = AudioBody audio) /\
    (forall text, getProp reqBody (js "text") = inr text -> truthy text = false ->
       resp = json 400 [(js "error", JString (js "Text is required"))] /\ tr = []).
Proof. apply postTts_cases. Qed.

(** X19: a failure of POST /api/chat never passes on what the remote model
    reported: with an identifier and a body, a response with status 500 has
    the error "Failed to process request" and as details one of the two fixed
    texts of the gateway. *)
Theorem postChat_failure_details_fixed (sid : jsstring) (reqBody : JSValue)
    (now : Z) (up : OpenAI.Outcome OpenAI.ChatCompletion) (w : World)
    (f m : JSValue) (resp : Response) (w' : World) :
  sid <> [] ->
  getProp reqBody (js "isFollowUp") = inr f ->
  getProp reqBody (js "message") = inr m ->
  postChat (Some sid) reqBody now up w = (inr resp, w') ->
  status resp = 500 ->
  field (js "error") resp = Some (JString (js "Failed to process request")) /\
  (field (js "details") resp = Some (JString (js "Failed to generate summary")) \/
   field (js "details") resp
     = Some (JString (js "Failed to process follow-up question"))).
Proof.
  intros Hsid Hf Hm.
  rewrite (ServerProps.postChat_run sid reqBody now up w f m Hsid Hf Hm). simpl.
  destruct (SessionManager.getAnalysis sid now (store w)).1 as [data|];
    [|by intros [= <- _] [=]].
  destruct (truthy f && truthy m).
  - destruct (ToString m) as [e|q].
    + intros [= <- _] _. split; [by vm_compute|]. right. by vm_compute.
    + unfold followUpResultOf.
      destruct up as [response|e];
        [destruct (AiService.firstContentTrimmed response)|];
        intros [= <- _]; try (by intros [=]); intros _;
        (split; [by vm_compute|]); right; by vm_compute.
  - unfold summaryResultOf.
    destruct up as [response|e];
      [destruct (AiService.firstContentTrimmed response)|];
      intros [= <- _]; try (by intros [=]); intros _;
      (split; [by vm_compute|]); left; by vm_compute.
Qed.

(** X20: a session created by POST /api/analyze serves POST /api/chat for 15
    minutes.  After a successful analysis at instant [T], a chat request with
    the returned identifier is not answered 404 at any instant up to
    [T + TTL]: the stored analysis is looked up and handed to the summary or
    the follow-up gateway.  After [T + TTL] the same request is answered 404
    and the entry is gone from the store. *)
Theorem session_serves_chat_until_expiry (f : UploadedFile)
    (vision : OpenAI.Outcome OpenAI.ChatCompletion) (uuid : jsstring)
    (ts T : Z) (summaryUpstream : OpenAI.Outcome OpenAI.ChatCompletion)
    (w : World) (a : JSValue) (reqBody : JSValue) (now : Z)
    (up : OpenAI.Outcome OpenAI.ChatCompletion) (fl m : JSValue) :
  (AiService.analyzeImage (Base64.encode (buffer f)) (mimetype f) vision w).1
    = inr (AnalysisSuccess a) ->
  uuid <> [] -> 0 <= T ->
  getProp reqBody (js "isFollowUp") = inr fl ->
  getProp reqBody (js "message") = inr m ->
  (now <= T + SessionManager.TTL_ms ->
     exists resp tr,
       postChat (Some uuid) reqBody now up
         (postAnalyze (Some f) vision uuid ts T summaryUpstream w).2 =
         (inr resp,
          {| store := store (postAnalyze (Some f) vision uuid ts T summaryUpstream w).2;
             trace := trace (postAnalyze (Some f) vision uuid ts T summaryUpstream w).2
                        ++ CallGetAnalysis uuid :: tr |}) /\
       status resp <> 404 /\
       Exists (fun ev => ev = CallGenerateSummary a \/ ev = CallHandleFollowUp a m) tr) /\
  (T + SessionManager.TTL_ms < now ->
     exists resp w2,
       postChat (Some uuid) reqBody now up
         (postAnalyze (Some f) vision uuid ts T summaryUpstream w).2 = (inr resp, w2) /\
       status resp = 404 /\ store w2 !! uuid = None).
Proof.
  intros Hok Huuid HT Hfl Hm.
  destruct (GatewayProps.analyzeImage_run (Base64.encode (buffer f)) (mimetype f) vision w)
    as (r & tr1 & E & _ & _).
  rewrite E in Hok. simpl in Hok. injection Hok as ->.
  rewrite (ServerProps.postAnalyze_after_success _ _ _ _ _ _ _ _ _ E).
  cbn [snd].
  set (w1 := {| store := _; trace := _ |}).
  rewrite (ServerProps.postChat_run uuid reqBody now up w1 fl m Huuid Hfl Hm).
  pose proof (SessionStoreProps.storeAnalysis_lookup uuid a ts T (store w)) as Hlk.
  assert (Httl : 0 < SessionManager.TTL_ms) by (unfold SessionManager.TTL_ms; simpl; lia).
  cbv zeta. split.
  - intros Hnow.
    assert (Hget : SessionManager.getAnalysis uuid now (store w1)
                   = (Some {| SessionManager.analysis := a;
                              SessionManager.timestamp := ts |}, store w1)).
    { unfold SessionManager.getAnalysis, NodeCache.get. subst w1. simpl in *.
      rewrite Hlk.
      assert (NodeCache.expired
                {| NodeCache.t := T + SessionManager.TTL_ms;
                   NodeCache.v := {| SessionManager.analysis := a;
                                     SessionManager.timestamp := ts |} |} now = false)
        as ->; [|done].
      apply SessionStoreProps.expired_false_iff. simpl. lia. }
    rewrite Hget. simpl.
    destruct (truthy fl && truthy m).
    + eexists _, _. split; [reflexivity|]. split.
      * destruct (ToString m); [done|]. by destruct (followUpResultOf up).
      * constructor. by right.
    + eexists _, _. split; [reflexivity|]. split.
      * by destruct (summaryResultOf up).
      * constructor. by left.
  - intros Hnow.
    assert (Hget : SessionManager.getAnalysis uuid now (store w1)
                   = (None, delete uuid (store w1))).
    { unfold SessionManager.getAnalysis, NodeCache.get. subst w1. simpl in *.
      rewrite Hlk.
      assert (NodeCache.expired
                {| NodeCache.t := T + SessionManager.TTL_ms;
                   NodeCache.v := {| SessionManager.analysis := a;
                                     SessionManager.timestamp := ts |} |} now = true)
        as ->; [|done].
      unfold NodeCache.expired. simpl.
      destruct (Z.eqb_spec (T + SessionManager.TTL_ms) 0),
               (Z.ltb_spec (T + SessionManager.TTL_ms) now); simpl; try done; lia. }
    rewrite Hget. simpl. eexists _, _. split; [reflexivity|].
    split; [done|]. simpl. apply lookup_delete_eq.
Qed.

Lemma serve_absent (sid : jsstring) (i : Incoming) (w : World) :
  ~ generates sid i -> store w !! sid = None -> store (serve i w) !! sid = None.
Proof.
  intros Hgen Hnone.
  destruct i as [file vision uuid ts now sumUp | header reqBody now up
                 | reqBody up | now]; simpl in *.
  - destruct (ServerProps.postAnalyze_store file vision uuid ts now sumUp w)
      as [-> | (a & _ & ->)]; [done|].
    simpl. by rewrite lookup_insert_ne.
  - destruct (store (postChat header reqBody now up w).2 !! sid) as [e|] eqn:E;
      [|done].
    apply (ServerBehaviour.postChat_store_shrinks header reqBody now up w) in E.
    congruence.
  - by rewrite ServerProps.postTts_store.
  - apply map_lookup_filter_None. by left.
Qed.

(** X21: sessions come from POST /api/analyze only.  Starting from the empty
    server, after any requests and sweeps none of which is an upload that
    generated [sid], the store has nothing under [sid], and a chat request
    with that identifier is answered 404. *)
Theorem sessions_come_from_analyze (l : list Incoming) (sid : jsstring)
    (reqBody : JSValue) (now : Z) (up : OpenAI.Outcome OpenAI.ChatCompletion) :
  Forall (fun i => ~ generates sid i) l ->
  store (serveAll l initial) !! sid = None /\
  (sid <> [] -> nullish reqBody = false ->
     exists resp,
       (postChat (Some sid) reqBody now up (serveAll l initial)).1 = inr resp /\
       status resp = 404).
Proof.
  intros Hl.
  assert (Hnone : store (serveAll l initial) !! sid = None).
  { assert (Hgen : forall w, store w !! sid = None ->
                             store (serveAll l w) !! sid = None).
    { induction Hl as [|i l Hi _ IH]; intros w Hw; [done|].
      simpl. apply IH. by apply serve_absent. }
    apply Hgen. apply lookup_empty. }
  split; [done|]. intros Hsid Hbody.
  destruct (ServerProps.getProp_defined reqBody (js "isFollowUp") Hbody) as [f Hf].
  destruct (ServerProps.getProp_defined reqBody (js "message") Hbody) as [m Hm].
  rewrite (ServerProps.postChat_run sid reqBody now up _ f m Hsid Hf Hm).
  cbv zeta.
  rewrite (SessionStoreProps.getAnalysis_absent _ _ _ Hnone). by eexists.
Qed.




(** X23: POST /generate-response never succeeds.  A request without a body
    is answered 400; any other request is answered 500 "Internal server
    error", because the function the route calls is defined nowhere; the
    second 400 of the route, for a missing message, can never be sent. *)
Theorem generate_response_never_succeeds
    (referenceErrorMessage : jsstring -> jsstring) (reqBody : JSValue) (w : World) :
  (truthy reqBody = false ->
     postGenerateResponse referenceErrorMessage reqBody w =
       (inr (json 400 [(js "success", JBool false);
                       (js "error", JString (js "Request body is required"))]), w)) /\
  (truthy reqBody = true ->
     postGenerateResponse referenceErrorMessage reqBody w =
       (inr (json 500
               [(js "success", JBool false);
                (js "error", JString (js "Internal server error"));
                (js "details",
                 JString (referenceErrorMessage (js "generateResponse")))]), w)).
Proof.
  unfold postGenerateResponse, generateResponse. run_monad. split.
  - by intros ->.
  - intros Hb. rewrite Hb. simpl.
    assert (Hnn : nullish reqBody = false) by (by destruct reqBody).
    destruct (ServerProps.getProp_defined reqBody (js "message") Hnn) as [m ->].
    destruct (ServerProps.getProp_defined reqBody (js "text") Hnn) as [t ->].
    destruct (truthy m) eqn:Tm; simpl; [by rewrite Tm|].
    unfold or_else. destruct (truthy t) eqn:Tt; simpl.
    + by rewrite Tt.
    + by rewrite Hb.
Qed.

(** X24: the summary that POST /api/analyze returns after a successful
    analysis, when the summary call delivers a text: the trimmed text if it
    is not empty; for a text of white space only, the summary built from the
    analysis (or the last-resort sentence), so the summary is never empty. *)
Theorem postAnalyze_summary_choice (f : UploadedFile)
    (vision : OpenAI.Outcome OpenAI.ChatCompletion) (uuid : jsstring)
    (ts now : Z) (w : World) (a : JSValue) (content : jsstring)
    (others : list OpenAI.Choice) :
  (AiService.analyzeImage (Base64.encode (buffer f)) (mimetype f) vision w).1
    = inr (AnalysisSuccess a) ->
  exists summary w',
    postAnalyze (Some f) vision uuid ts now (replyWith content others) w =
      (inr (json 200 [(js "success", JBool true);
                      (js "sessionId", JString uuid);
                      (js "summary", JString summary);
                      (js "hasAnalysis", JBool true);
                      (js "analysis", a)]), w') /\
    summary <> [] /\
    (trim content <> [] -> summary = trim content) /\
    (trim content = [] ->
       summary = match fallbackSummary a with
                 | inr text => text
                 | inl _ => genericSummary
                 end).
Proof.
  intros Hok.
  destruct (GatewayProps.analyzeImage_run (Base64.encode (buffer f)) (mimetype f) vision w)
    as (r & tr & E & _ & _).
  rewrite E in Hok. simpl in Hok. injection Hok as ->.
  eexists _, _. split; [by apply ServerProps.postAnalyze_after_success|].
  split; [apply ServerProps.summaryFor_nonempty|].
  unfold summaryResultOf, replyWith, AiService.firstContentTrimmed, summaryFor. simpl.
  destruct (trim content) as [|c t]; by split.
Qed.

(** X25: POST /api/chat on a session that resolves, when the remote model
    delivers a text: the response is that text, trimmed, with [isFollowUp]
    telling which gateway answered (follow-up only for a truthy [isFollowUp]
    and a message that is a non-empty string here); the store is left exactly
    as it was.  Unlike the upload, a plain summary request can be answered
    with an empty text. *)
Theorem postChat_answers_with_reply (sid : jsstring) (reqBody : JSValue)
    (now : Z) (w : World) (data : SessionManager.SessionRecord)
    (f m : JSValue) (content : jsstring) (others : list OpenAI.Choice) :
  sid <> [] ->
  getProp reqBody (js "isFollowUp") = inr f ->
  getProp reqBody (js "message") = inr m ->
  (SessionManager.getAnalysis sid now (store w)).1 = Some data ->
  (truthy f = true -> forall q, m = JString q -> q <> [] ->
     postChat (Some sid) reqBody now (replyWith content others) w =
       (inr (json 200 [(js "success", JBool true);
                       (js "response", JString (trim content));
                       (js "isFollowUp", JBool true)]),
        {| store := store w;
           trace := trace w ++
             [CallGetAnalysis sid;
              CallHandleFollowUp (SessionManager.analysis data) m;
              Outbound (OpenAI.FollowUpRequest (SessionManager.analysis data) q)] |})) /\
  (truthy f && truthy m = false ->
     postChat (Some sid) reqBody now (replyWith content others) w =
       (inr (json 200 [(js "success", JBool true);
                       (js "response", JString (trim content));
                       (js "isFollowUp", JBool false)]),
        {| store := store w;
           trace := trace w ++
             [CallGetAnalysis sid;
              CallGenerateSummary (SessionManager.analysis data);
              Outbound (OpenAI.SummaryRequest (SessionManager.analysis data))] |})).
Proof.
  intros Hsid Hf Hm Hdata.
  rewrite (ServerProps.postChat_run sid reqBody now _ w f m Hsid Hf Hm).
  cbv zeta. rewrite (getAnalysis_found_keeps_store _ _ _ _ Hdata), Hdata.
  split.
  - intros Tf q -> Hq. rewrite Tf. simpl.
    by rewrite (bool_decide_eq_false_2 _ Hq).
  - by intros ->.
Qed.

End WithEngine.

Lemma postTts_behaviour_witness :
  exists resp tr,
    postTts (H := Examples.engine) (JObject [(js "voice", JString (js "nova"))])
      (OpenAI.Resolves Examples.audio) Examples.withSession =
      (inr resp, {| store := store Examples.withSession;
                    trace := trace Examples.withSession ++ tr |}) /\
    resp = json 400 [(js "error", JString (js "Text is required"))] /\ tr = [].
Proof.
  destruct (postTts_behaviour (H := Examples.engine)
              (JObject [(js "voice", JString (js "nova"))])
              (OpenAI.Resolves Examples.audio) Examples.withSession)
    as (resp & tr & Hrun & _ & _ & _ & _ & Hnotext).
  exists resp, tr. split; [exact Hrun|].
  apply (Hnotext JUndefined); by vm_compute.
Defined.

Lemma postChat_failure_details_fixed_witness :
  field (js "error")
    (json 500 [(js "success", JBool false);
               (js "error", JString (js "Failed to process request"));
               (js "details", JString (js "Failed to generate summary"))])
    = Some (JString (js "Failed to process request")) /\
  (field (js "details")
     (json 500 [(js "success", JBool false);
                (js "error", JString (js "Failed to process request"));
                (js "details", JString (js "Failed to generate summary"))])
     = Some (JString (js "Failed to generate summary")) \/
   field (js "details")
     (json 500 [(js "success", JBool false);
                (js "error", JString (js "Failed to process request"));
                (js "details", JString (js "Failed to generate summary"))])
     = Some (JString (js "Failed to process follow-up question"))).
Proof.
  apply (postChat_failure_details_fixed (H := Examples.engine) Examples.uuid
           (JObject []) 2000 (OpenAI.Rejects Examples.overloaded)
           Examples.withSession JUndefined JUndefined _
           (postChat (H := Examples.engine) (Some Examples.uuid) (JObject []) 2000
              (OpenAI.Rejects Examples.overloaded) Examples.withSession).2);
    by vm_compute.
Defined.

Lemma session_serves_chat_until_expiry_witness :
  (exists resp w2,
     postChat (H := Examples.engine) (Some Examples.uuid) (JObject []) 902000
       (OpenAI.Rejects Examples.overloaded)
       (postAnalyze (H := Examples.engine) (Some Examples.jpeg)
          (replyWith Examples.chocoBarText []) Examples.uuid 1000 1000
          (OpenAI.Rejects Examples.overloaded) initial).2 = (inr resp, w2) /\
     status resp = 404 /\ store w2 !! Examples.uuid = None).
Proof.
  destruct (session_serves_chat_until_expiry (H := Examples.engine) Examples.jpeg
              (replyWith Examples.chocoBarText []) Examples.uuid 1000 1000
              (OpenAI.Rejects Examples.overloaded) initial Examples.chocoBar
              (JObject []) 902000 (OpenAI.Rejects Examples.overloaded)
              JUndefined JUndefined
              ltac:(by vm_compute) ltac:(by vm_compute) ltac:(lia)
              ltac:(by vm_compute) ltac:(by vm_compute)) as [_ Hafter].
  apply Hafter. by vm_compute.
Defined.

Lemma sessions_come_from_analyze_witness :
  store (serveAll (H := Examples.engine)
           [Analyze (Some Examples.jpeg) (replyWith Examples.chocoBarText [])
              Examples.uuid 1000 1000 (OpenAI.Rejects Examples.overloaded);
            Chat (Some (js "guess")) (JObject []) 2000
              (OpenAI.Rejects Examples.overloaded);
            Sweep 3000]
           initial) !! js "guess" = None.
Proof.
  apply (sessions_come_from_analyze (H := Examples.engine) _ (js "guess")
           (JObject []) 4000 (OpenAI.Rejects Examples.overloaded)).
  repeat constructor; simpl; try tauto. intros Heq. by vm_compute in Heq.
Defined.

Lemma generate_response_never_succeeds_witness :
  postGenerateResponse (H := Examples.engine) notDefined
    (JObject [(js "message", JString (js "Hi"))]) initial =
    (inr (json 500
            [(js "success", JBool false);
             (js "error", JString (js "Internal server error"));
             (js "details", JString (js "generateResponse is not defined"))]),
     initial).
Proof.
  destruct (generate_response_never_succeeds (H := Examples.engine) notDefined
              (JObject [(js "message", JString (js "Hi"))]) initial) as [_ Hbody].
  rewrite Hbody; by vm_compute.
Defined.

Lemma postAnalyze_summary_choice_witness :
  exists summary w',
    postAnalyze (H := Examples.engine) (Some Examples.jpeg)
      (replyWith Examples.chocoBarText []) Examples.uuid 1000 1000
      (replyWith blank []) initial =
      (inr (json 200 [(js "success", JBool true);
                      (js "sessionId", JString Examples.uuid);
                      (js "summary", JString summary);
                      (js "hasAnalysis", JBool true);
                      (js "analysis", Examples.chocoBar)]), w') /\
    summary <> [] /\
    (trim blank <> [] -> summary = trim blank) /\
    (trim blank = [] ->
       summary = match fallbackSummary (H := Examples.engine) Examples.chocoBar with
                 | inr text => text
                 | inl _ => genericSummary
                 end).
Proof.
  apply (postAnalyze_summary_choice (H := Examples.engine)). by vm_compute.
Defined.

Lemma postChat_answers_with_reply_witness :
  postChat (H := Examples.engine) (Some Examples.uuid) (JObject []) 2000
    (replyWith blank []) Examples.withSession =
    (inr (json 200 [(js "success", JBool true);
                    (js "response", JString (trim blank));
                    (js "isFollowUp", JBool false)]),
     {| store := store Examples.withSession;
        trace := trace Examples.withSession ++
          [CallGetAnalysis Examples.uuid;
           CallGenerateSummary (SessionManager.analysis Examples.chocoBarRecord);
           Outbound (OpenAI.SummaryRequest
                       (SessionManager.analysis Examples.chocoBarRecord))] |}).
Proof.
  destruct (postChat_answers_with_reply (H := Examples.engine) Examples.uuid
              (JObject []) 2000 Examples.withSession Examples.chocoBarRecord
              JUndefined JUndefined blank []
              ltac:(by vm_compute) ltac:(by vm_compute) ltac:(by vm_compute)
              ltac:(by vm_compute)) as [_ Hsummary].
  by apply Hsummary.
Defined.

End Orchestration.

(* ===================================================================== *)
(** ** The summary built from the analysis *)
(* ===================================================================== *)

Module FallbackSummary.
Import Js JsConv Effects Vocabulary Observations Server.

Section WithEngine.
Context `{JsEngine}.

(** Joining strings never throws. *)
Lemma join_strings (sep : jsstring) (items : list jsstring) :
  exists joined, joinWith ToString sep (JString <$> items) = inr joined.
Proof.
  induction items as [|x items [rest IH]]; [by eexists|].
  simpl. destruct items as [|y items]; [by eexists|].
  simpl in *. rewrite IH. by eexists.
Qed.

(** X26: the defaults of the summary built from the analysis.  When the
    product name is missing or falsy, the ingredients are missing, [null] or
    an empty list, and there is no truthy calorie count, the summary is
    exactly "This product contains various ingredients. ". *)
Theorem fallbackSummary_defaults (a pn ing nf : JSValue) :
  getProp a (js "productName") = inr pn -> truthy pn = false ->
  getProp a (js "ingredients") = inr ing ->
  (nullish ing = true \/ ing = JArray []) ->
  getProp a (js "nutritionFacts") = inr nf ->
  (nullish nf = true \/
   exists c, getProp nf (js "calories") = inr c /\ truthy c = false) ->
  fallbackSummary a = inr (js "This product contains various ingredients. ").
Proof.
  intros Hpn Tpn Hing Cing Hnf Cnf.
  unfold fallbackSummary. run_monad. rewrite Hpn, Hing, Hnf.
  unfold or_else. rewrite Tpn.
  destruct Cing as [Hn | ->]; [rewrite Hn|]; simpl.
  all: destruct Cnf as [Hnn | (c & Hc & Tc)];
    [rewrite Hnn
    |assert (nullish nf = false) as -> by (by destruct nf); rewrite Hc, Tc];
    simpl; f_equal; by vm_compute.
Qed.

(** X27: for an analysis of the documented shape (the product name a string,
    the ingredients a list of strings, the calorie count a number or absent)
    building the summary never throws, and the summary contains the product
    name when that is not empty. *)
Theorem fallbackSummary_documented_shape (a nf : JSValue) (p : jsstring)
    (ingredients : list jsstring) :
  getProp a (js "productName") = inr (JString p) ->
  getProp a (js "ingredients") = inr (JArray (JString <$> ingredients)) ->
  getProp a (js "nutritionFacts") = inr nf ->
  (nullish nf = true \/
   exists c, getProp nf (js "calories") = inr c /\
             (c = JUndefined \/ exists n, c = JNumber n)) ->
  exists text,
    fallbackSummary a = inr text /\ (p <> [] -> includes p text).
Proof.
  intros Hpn Hing Hnf Cnf.
  assert (Hex : exists text, fallbackSummary a = inr text).
  { unfold fallbackSummary. run_monad. rewrite Hpn, Hing, Hnf. simpl.
    destruct (join_strings (js ", ") ingredients) as [joined ->]. simpl.
    assert (Hp : exists q, ToString (or_else (JString p) (JString (js "This product")))
                           = inr q).
    { unfold or_else. destruct (truthy (JString p)); by eexists. }
    destruct Hp as [q ->].
    assert (Hi : exists i, ToString (or_else (JString joined)
                                       (JString (js "various ingredients"))) = inr i).
    { unfold or_else. destruct (truthy (JString joined)); by eexists. }
    destruct Hi as [i ->].
    destruct Cnf as [-> | (c & Hc & Cc)]; [by eexists|].
    assert (nullish nf = false) as -> by (by destruct nf).
    rewrite Hc. destruct Cc as [-> | [n ->]]; [by eexists|].
    simpl. destruct (negb _); by eexists. }
  destruct Hex as [text Ht]. exists text. split; [done|]. intros Hne.
  apply ServerProps.fallbackSummary_shape in Ht as (pn & q & rest & Hpn' & Hq & ->).
  rewrite Hpn in Hpn'. injection Hpn' as <-.
  unfold or_else in Hq. simpl in Hq. rewrite (bool_decide_eq_false_2 _ Hne) in Hq.
  simpl in Hq. injection Hq as <-. by exists [], (js " contains " ++ rest).
Qed.

(** X28: an [ingredients] field that is present but not a list makes the
    building of the summary throw (a string, a number, a boolean or an
    object has no [join]); POST /api/analyze then answers with the
    last-resort sentence when the summary call has failed. *)
Theorem fallbackSummary_needs_ingredient_list (f : UploadedFile)
    (vision : OpenAI.Outcome OpenAI.ChatCompletion) (uuid : jsstring)
    (ts now : Z) (e : JSError) (w : World) (a ing : JSValue) :
  getProp a (js "ingredients") = inr ing -> nullish ing = false ->
  (forall elems, ing <> JArray elems) ->
  fallbackSummary a = inl (typeError ing (js "join")) /\
  ((AiService.analyzeImage (Base64.encode (buffer f)) (mimetype f) vision w).1
     = inr (AiService.AnalysisSuccess a) ->
   exists w',
     postAnalyze (Some f) vision uuid ts now (OpenAI.Rejects e) w =
       (inr (json 200 [(js "success", JBool true);
                       (js "sessionId", JString uuid);
                       (js "summary", JString genericSummary);
                       (js "hasAnalysis", JBool true);
                       (js "analysis", a)]), w')).
Proof.
  intros Hing Hnn Hnol.
  assert (Hthrow : fallbackSummary a = inl (typeError ing (js "join"))).
  { unfold fallbackSummary. run_monad.
    destruct (GatewayProps.getProp_twice _ _ (js "productName") _ Hing) as [pn ->].
    rewrite Hing, Hnn.
    destruct ing; simpl; try done. by destruct (Hnol elems). }
  split; [done|]. intros Hok.
  destruct (GatewayProps.analyzeImage_run (Base64.encode (buffer f)) (mimetype f) vision w)
    as (r & tr & E & _ & _).
  rewrite E in Hok. simpl in Hok. injection Hok as ->.
  eexists. rewrite (ServerProps.postAnalyze_after_success _ _ _ _ _ _ _ _ _ E).
  unfold summaryFor, summaryResultOf. by rewrite Hthrow.
Qed.

End WithEngine.

Lemma fallbackSummary_defaults_witness :
  fallbackSummary (H := Examples.engine)
    (JObject [(js "productName", JString []); (js "ingredients", JArray [])])
    = inr (js "This product contains various ingredients. ").
Proof.
  apply (fallbackSummary_defaults (H := Examples.engine) _ (JString []) (JArray [])
           JUndefined); try (by vm_compute); [by right | by left].
Defined.

Lemma fallbackSummary_documented_shape_witness :
  exists text,
    fallbackSummary (H := Examples.engine) Examples.chocoBar = inr text /\
    (js "Choco Bar" <> [] -> includes (js "Choco Bar") text).
Proof.
  apply (fallbackSummary_documented_shape (H := Examples.engine) Examples.chocoBar
           (JObject [(js "calories", JNumber 200%float)]) (js "Choco Bar")
           [js "sugar"; js "cocoa"]); try (by vm_compute).
  right. exists (JNumber 200%float). split; [by vm_compute|]. right. by eexists.
Defined.

Lemma fallbackSummary_needs_ingredient_list_witness :
  fallbackSummary (H := Examples.engine) Examples.loose
    = inl (typeError (H := Examples.engine) (JString (js "sugar, cocoa")) (js "join")).
Proof.
  destruct (fallbackSummary_needs_ingredient_list (H := Examples.engine)
              Examples.jpeg (replyWith Examples.looseText []) Examples.uuid
              1000 1000 Examples.overloaded initial Examples.loose
              (JString (js "sugar, cocoa"))) as [Hthrow _];
    [by vm_compute | by vm_compute | done | exact Hthrow].
Defined.

End FallbackSummary.
